(** * GtkPopoverMenu (gtk/gtkpopovermenu.c): a shallow embedding

    The popover menu is a GtkPopover whose single direct child is a GtkStack
    of named pages.  This file embeds the functions of gtkpopovermenu.c as
    state-passing Rocq functions and proves the documented properties of the
    naming convention, the map/unmap reset, the property accessors, the
    removal forwarding and the change notification.

    gtkpopovermenu.c only composes collaborators that live in other files
    (GtkStack, GtkBin, GtkWidget).  Those are modelled from the written
    specification and every such definition says so in its comment. *)

From stdpp Require Import base strings list gmap.

Local Open Scope string_scope.
Local Open Scope list_scope.
Local Open Scope nat_scope.

(** ** Widgets *)

(** A [GtkWidget *]: the address of the object, together with the name the
    object carries.  Nothing in gtkpopovermenu.c renames a widget, so the
    name travels with the pointer.  Pointer comparison ([child == stack])
    compares addresses. *)
Record GtkWidget := mkWidget {
  widget_addr : nat;
  widget_name : option string
}.

Definition same_widget (a b : GtkWidget) : bool :=
  bool_decide (widget_addr a = widget_addr b).

(** Modelled from the spec: gtk_widget_get_name (gtkwidget.c is missing).
    "a child widget's own name attribute, when present, becomes its page
    name": the getter yields the name when the widget has one and NULL
    ([None]) otherwise, which is what gtk_popover_menu_add tests. *)
Definition gtk_widget_get_name (w : GtkWidget) : option string :=
  widget_name w.

(** ** The page container (GtkStack) *)

Inductive GtkStackTransitionType :=
  | GTK_STACK_TRANSITION_TYPE_NONE
  | GTK_STACK_TRANSITION_TYPE_SLIDE_LEFT_RIGHT.

(** Callbacks that gtkpopovermenu.c connects to a signal.  The user data of
    the connection is the popover itself. *)
Inductive GCallback :=
  | CB_visible_submenu_changed.

(** The specification leaves two behaviours of the page container open; the
    model takes both as parameters and every theorem below holds for each
    choice.
    - an unknown page name given to the visible-name setter: "no-op or
      becomes blank";
    - a name that collides with an existing page on insertion: the old page
      is "silently replaced", or the insertion is refused ("fail, ignore, or
      overwrite"; failing and ignoring leave the same state). *)
Inductive AbsentNamePolicy := ABSENT_NO_OP | ABSENT_BLANK.
Inductive CollisionPolicy := COLLISION_OVERWRITE | COLLISION_REFUSE.

Record StackPolicy := mkPolicy {
  on_absent : AbsentNamePolicy;
  on_collision : CollisionPolicy
}.

Definition all_policies : list StackPolicy :=
  [ mkPolicy ABSENT_NO_OP COLLISION_OVERWRITE;
    mkPolicy ABSENT_NO_OP COLLISION_REFUSE;
    mkPolicy ABSENT_BLANK COLLISION_OVERWRITE;
    mkPolicy ABSENT_BLANK COLLISION_REFUSE ].

(** Modelled from the spec: the GtkStack instance data (gtkstack.c is
    missing).  "an ordered mapping from page-name (string, unique) to child
    widget; exactly one entry is visible at a time (or none)".
    [stack_notify_handlers] are the callbacks connected to
    notify::visible-child-name.  [stack_requested] is a history variable: the
    names handed to the visible-name setter so far, oldest first; no
    operation reads it. *)
Record GtkStack := mkStack {
  stack_children : list (string * GtkWidget);
  stack_visible_child_name : option string;
  stack_vhomogeneous : bool;
  stack_transition_type : GtkStackTransitionType;
  stack_interpolate_size : bool;
  stack_notify_handlers : list GCallback;
  stack_requested : list string
}.

(** Result of a stack operation: the new stack and the callbacks that the
    operation's signal emissions invoke, in order. *)
Definition Emitting (A : Type) : Type := A * list GCallback.

Module Stack.

Definition page_names (s : GtkStack) : list string :=
  (stack_children s).*1.

(** Modelled from the spec: gtk_stack_new; "creates an empty page
    container". *)
Definition gtk_stack_new : GtkStack :=
  {| stack_children := [];
     stack_visible_child_name := None;
     stack_vhomogeneous := true;
     stack_transition_type := GTK_STACK_TRANSITION_TYPE_NONE;
     stack_interpolate_size := false;
     stack_notify_handlers := [];
     stack_requested := [] |}.

Definition gtk_stack_set_vhomogeneous (s : GtkStack) (b : bool) : GtkStack :=
  {| stack_children := stack_children s;
     stack_visible_child_name := stack_visible_child_name s;
     stack_vhomogeneous := b;
     stack_transition_type := stack_transition_type s;
     stack_interpolate_size := stack_interpolate_size s;
     stack_notify_handlers := stack_notify_handlers s;
     stack_requested := stack_requested s |}.

Definition gtk_stack_set_transition_type (s : GtkStack)
    (t : GtkStackTransitionType) : GtkStack :=
  {| stack_children := stack_children s;
     stack_visible_child_name := stack_visible_child_name s;
     stack_vhomogeneous := stack_vhomogeneous s;
     stack_transition_type := t;
     stack_interpolate_size := stack_interpolate_size s;
     stack_notify_handlers := stack_notify_handlers s;
     stack_requested := stack_requested s |}.

Definition gtk_stack_set_interpolate_size (s : GtkStack) (b : bool) : GtkStack :=
  {| stack_children := stack_children s;
     stack_visible_child_name := stack_visible_child_name s;
     stack_vhomogeneous := stack_vhomogeneous s;
     stack_transition_type := stack_transition_type s;
     stack_interpolate_size := b;
     stack_notify_handlers := stack_notify_handlers s;
     stack_requested := stack_requested s |}.

(** g_signal_connect (stack, "notify::visible-child-name", cb, popover). *)
Definition g_signal_connect_visible_child_name (s : GtkStack)
    (cb : GCallback) : GtkStack :=
  {| stack_children := stack_children s;
     stack_visible_child_name := stack_visible_child_name s;
     stack_vhomogeneous := stack_vhomogeneous s;
     stack_transition_type := stack_transition_type s;
     stack_interpolate_size := stack_interpolate_size s;
     stack_notify_handlers := stack_notify_handlers s ++ [cb];
     stack_requested := stack_requested s |}.

Definition with_children (s : GtkStack)
    (l : list (string * GtkWidget)) : GtkStack :=
  {| stack_children := l;
     stack_visible_child_name := stack_visible_child_name s;
     stack_vhomogeneous := stack_vhomogeneous s;
     stack_transition_type := stack_transition_type s;
     stack_interpolate_size := stack_interpolate_size s;
     stack_notify_handlers := stack_notify_handlers s;
     stack_requested := stack_requested s |}.

Definition with_requested (s : GtkStack) (l : list string) : GtkStack :=
  {| stack_children := stack_children s;
     stack_visible_child_name := stack_visible_child_name s;
     stack_vhomogeneous := stack_vhomogeneous s;
     stack_transition_type := stack_transition_type s;
     stack_interpolate_size := stack_interpolate_size s;
     stack_notify_handlers := stack_notify_handlers s;
     stack_requested := l |}.

(** Modelled from the spec: the visible name changes to [v]; the
    notify::visible-child-name handlers run "whenever the page container's
    visible name changes", and only then. *)
Definition set_visible (s : GtkStack) (v : option string) : Emitting GtkStack :=
  if decide (stack_visible_child_name s = v) then (s, [])
  else ({| stack_children := stack_children s;
           stack_visible_child_name := v;
           stack_vhomogeneous := stack_vhomogeneous s;
           stack_transition_type := stack_transition_type s;
           stack_interpolate_size := stack_interpolate_size s;
           stack_notify_handlers := stack_notify_handlers s;
           stack_requested := stack_requested s |},
        stack_notify_handlers s).

(** Modelled from the spec: gtk_stack_get_child_by_name; the page stored
    under [name], NULL ([None]) when there is none. *)
Fixpoint lookup_page (l : list (string * GtkWidget)) (name : string)
    : option GtkWidget :=
  match l with
  | [] => None
  | (n, w) :: rest =>
      if decide (n = name) then Some w else lookup_page rest name
  end.

Definition gtk_stack_get_child_by_name (s : GtkStack) (name : string)
    : option GtkWidget :=
  lookup_page (stack_children s) name.

Fixpoint replace_page (l : list (string * GtkWidget)) (name : string)
    (child : GtkWidget) : list (string * GtkWidget) :=
  match l with
  | [] => []
  | (n, w) :: rest =>
      if decide (n = name) then (name, child) :: rest
      else (n, w) :: replace_page rest name child
  end.

Section WithPolicy.
Variable pol : StackPolicy.

(** Modelled from the spec: gtk_stack_add_named; "inserts the child into
    the page container under that name".  A free name is appended (the
    mapping is ordered); a colliding name follows [on_collision]. *)
Definition gtk_stack_add_named (s : GtkStack) (child : GtkWidget)
    (name : string) : GtkStack :=
  match gtk_stack_get_child_by_name s name with
  | None => with_children s (stack_children s ++ [(name, child)])
  | Some _ =>
      match on_collision pol with
      | COLLISION_OVERWRITE =>
          with_children s (replace_page (stack_children s) name child)
      | COLLISION_REFUSE => s
      end
  end.

(** Modelled from the spec: gtk_stack_set_visible_child_name; "sets the
    page container's visible page to name ... if absent, the underlying
    container's behavior governs (no-op or becomes blank)". *)
Definition gtk_stack_set_visible_child_name (s : GtkStack)
    (name : string) : Emitting GtkStack :=
  let s1 := with_requested s (stack_requested s ++ [name]) in
  match gtk_stack_get_child_by_name s1 name with
  | Some _ => set_visible s1 (Some name)
  | None =>
      match on_absent pol with
      | ABSENT_NO_OP => (s1, [])
      | ABSENT_BLANK => set_visible s1 None
      end
  end.

(** What the visible-name setter leaves visible, by the two cases of the
    specification. *)
Definition visible_after_set (s : GtkStack) (name : string) : option string :=
  if decide (name ∈ page_names s) then Some name
  else match on_absent pol with
       | ABSENT_NO_OP => stack_visible_child_name s
       | ABSENT_BLANK => None
       end.

End WithPolicy.

(** Modelled from the spec: gtk_stack_get_visible_child_name; the
    "visible-name getter". *)
Definition gtk_stack_get_visible_child_name (s : GtkStack) : option string :=
  stack_visible_child_name s.

(** Modelled from the spec: the GtkStack implementation of
    GtkContainer::remove; "removing an individual page removes only that
    page and leaves others addressable".  Since "exactly one entry is
    visible at a time (or none)", a visible name whose page is gone is
    cleared. *)
Definition gtk_stack_remove (s : GtkStack) (child : GtkWidget)
    : Emitting GtkStack :=
  let kept := filter (λ nw, same_widget nw.2 child = false) (stack_children s) in
  let s1 := with_children s kept in
  match stack_visible_child_name s1 with
  | Some v =>
      match lookup_page kept v with
      | Some _ => (s1, [])
      | None => set_visible s1 None
      end
  | None => (s1, [])
  end.

End Stack.

(** ** The popover menu *)

(** struct _GtkPopoverMenu has no fields of its own; everything below is
    state of the parent instance (GtkPopover, GtkBin, GtkWidget, GObject)
    that gtkpopovermenu.c reads or writes.  [stacks] holds the instance data
    of the live GtkStack objects by address, so that the cast GTK_STACK of a
    widget pointer is a lookup.  [notified] lists the property names passed
    to g_object_notify on the popover, oldest first. *)
Record GtkPopoverMenu := mkPopover {
  bin_child : option GtkWidget;
  stacks : gmap nat GtkStack;
  widget_mapped : bool;
  contents_style_classes : list string;
  notified : list string
}.

(** A string property as g_param_spec_string describes it. *)
Record GParamSpecString := mkParamSpec {
  pspec_name : string;
  pspec_default : option string;
  pspec_readable : bool;
  pspec_writable : bool
}.

Definition PROP_VISIBLE_SUBMENU : nat := 1.
Definition GTK_STYLE_CLASS_MENU : string := "menu".

Module Popover.
Import Stack.

Definition gtk_bin_get_child (p : GtkPopoverMenu) : option GtkWidget :=
  bin_child p.

(** GTK_STACK (w): the instance data behind a widget pointer, when the
    pointer is non-NULL and the object there is a GtkStack. *)
Definition GTK_STACK (p : GtkPopoverMenu) (w : option GtkWidget)
    : option GtkStack :=
  w ≫= λ w, stacks p !! widget_addr w.

Definition with_stacks (p : GtkPopoverMenu) (m : gmap nat GtkStack)
    : GtkPopoverMenu :=
  {| bin_child := bin_child p;
     stacks := m;
     widget_mapped := widget_mapped p;
     contents_style_classes := contents_style_classes p;
     notified := notified p |}.

Definition with_bin_child (p : GtkPopoverMenu) (c : option GtkWidget)
    : GtkPopoverMenu :=
  {| bin_child := c;
     stacks := stacks p;
     widget_mapped := widget_mapped p;
     contents_style_classes := contents_style_classes p;
     notified := notified p |}.

Definition with_mapped (p : GtkPopoverMenu) (b : bool) : GtkPopoverMenu :=
  {| bin_child := bin_child p;
     stacks := stacks p;
     widget_mapped := b;
     contents_style_classes := contents_style_classes p;
     notified := notified p |}.

(** g_object_notify (G_OBJECT (popover), name). *)
Definition g_object_notify (p : GtkPopoverMenu) (name : string)
    : GtkPopoverMenu :=
  {| bin_child := bin_child p;
     stacks := stacks p;
     widget_mapped := widget_mapped p;
     contents_style_classes := contents_style_classes p;
     notified := notified p ++ [name] |}.

(** gtk_style_context_add_class on the style context of the popover's
    contents widget. *)
Definition gtk_style_context_add_class (p : GtkPopoverMenu) (c : string)
    : GtkPopoverMenu :=
  {| bin_child := bin_child p;
     stacks := stacks p;
     widget_mapped := widget_mapped p;
     contents_style_classes := contents_style_classes p ++ [c];
     notified := notified p |}.

(** visible_submenu_changed, lines 120-126. *)
Definition visible_submenu_changed (popover : GtkPopoverMenu)
    : GtkPopoverMenu :=
  g_object_notify popover "visible-submenu".

Definition run_callback (p : GtkPopoverMenu) (cb : GCallback)
    : GtkPopoverMenu :=
  match cb with
  | CB_visible_submenu_changed => visible_submenu_changed p
  end.

(** Modelled from the spec: a call of a GtkStack function through a widget
    pointer.  On a NULL pointer or on an object that is no GtkStack the
    call is one of the "standard framework assertion failures for misuse"
    and has no effect; otherwise the stack is updated in place and the
    callbacks its signals invoke run on the popover. *)
Definition stack_call (p : GtkPopoverMenu) (stack : option GtkWidget)
    (f : GtkStack → Emitting GtkStack) : GtkPopoverMenu :=
  match stack with
  | Some w =>
      match stacks p !! widget_addr w with
      | Some s =>
          let r := f s in
          foldl run_callback (with_stacks p (<[widget_addr w := r.1]> (stacks p))) r.2
      | None => p
      end
  | None => p
  end.

Definition quiet (f : GtkStack → GtkStack) (s : GtkStack) : Emitting GtkStack :=
  (f s, []).

(** Modelled from the spec: the parent class (GtkPopover, a GtkBin)
    implementation of GtkContainer::add; it "installs the widget directly"
    as the single direct child. *)
Definition parent_class_add (p : GtkPopoverMenu) (child : GtkWidget)
    : GtkPopoverMenu :=
  with_bin_child p (Some child).

(** Modelled from the spec: the parent class implementation of
    GtkContainer::remove; "removing the page container itself is
    equivalent to destructing SubmenuContainer's content". *)
Definition parent_class_remove (p : GtkPopoverMenu) (child : GtkWidget)
    : GtkPopoverMenu :=
  match bin_child p with
  | Some c =>
      if same_widget child c
      then with_bin_child (with_stacks p (delete (widget_addr c) (stacks p))) None
      else p
  | None => p
  end.

(** Modelled from the spec: the parent class map and unmap; the instance
    is "mapped" or "unmapped". *)
Definition parent_class_map (p : GtkPopoverMenu) : GtkPopoverMenu :=
  with_mapped p true.
Definition parent_class_unmap (p : GtkPopoverMenu) : GtkPopoverMenu :=
  with_mapped p false.

Section WithPolicy.
Variable pol : StackPolicy.

(** gtk_popover_menu_open_submenu, lines 298-308.  The check
    GTK_IS_POPOVER_MENU (popover) holds by the type of the argument. *)
Definition gtk_popover_menu_open_submenu (popover : GtkPopoverMenu)
    (name : string) : GtkPopoverMenu :=
  let stack := gtk_bin_get_child popover in
  stack_call popover stack
    (λ s, gtk_stack_set_visible_child_name pol s name).

(** gtk_popover_menu_add_submenu, lines 318-328. *)
Definition gtk_popover_menu_add_submenu (popover : GtkPopoverMenu)
    (submenu : GtkWidget) (name : string) : GtkPopoverMenu :=
  let stack := gtk_bin_get_child popover in
  stack_call popover stack
    (quiet (λ s, gtk_stack_add_named pol s submenu name)).

(** The name chosen by lines 174-181 of gtk_popover_menu_add, for a
    popover whose bin child is [stack].  gtk_stack_get_child_by_name on
    a pointer that is no GtkStack returns NULL. *)
Definition gtk_popover_menu_add_name (container : GtkPopoverMenu)
    (stack : option GtkWidget) (child : GtkWidget) : string :=
  match gtk_widget_get_name child with
  | Some name => name
  | None =>
      match GTK_STACK container stack
            ≫= λ s, gtk_stack_get_child_by_name s "main" with
      | Some _ => "submenu"
      | None => "main"
      end
  end.

(** gtk_popover_menu_add, lines 160-185. *)
Definition gtk_popover_menu_add (container : GtkPopoverMenu)
    (child : GtkWidget) : GtkPopoverMenu :=
  let stack := gtk_bin_get_child container in
  match stack with
  | None => parent_class_add container child
  | Some _ =>
      let name := gtk_popover_menu_add_name container stack child in
      gtk_popover_menu_add_submenu container child name
  end.

(** gtk_popover_menu_remove, lines 187-199.  [child == stack] is false
    when [stack] is NULL, [child] being a widget.  The only containers the
    model holds are GtkStack objects, so gtk_container_remove on the child
    is the GtkStack removal; a child that is a container of another kind
    is outside the model. *)
Definition gtk_popover_menu_remove (container : GtkPopoverMenu)
    (child : GtkWidget) : GtkPopoverMenu :=
  let stack := gtk_bin_get_child container in
  if from_option (same_widget child) false stack
  then parent_class_remove container child
  else stack_call container stack (λ s, gtk_stack_remove s child).

(** gtk_popover_menu_map and gtk_popover_menu_unmap, lines 146-158. *)
Definition gtk_popover_menu_map (widget : GtkPopoverMenu) : GtkPopoverMenu :=
  gtk_popover_menu_open_submenu (parent_class_map widget) "main".

Definition gtk_popover_menu_unmap (widget : GtkPopoverMenu) : GtkPopoverMenu :=
  parent_class_unmap (gtk_popover_menu_open_submenu widget "main").

(** gtk_popover_menu_get_property, lines 201-221: the string stored in
    the GValue, NULL being [None].  An unknown property id only warns and
    leaves the value unset. *)
Definition gtk_popover_menu_get_property (object : GtkPopoverMenu)
    (property_id : nat) : option string :=
  let stack := gtk_bin_get_child object in
  if decide (property_id = PROP_VISIBLE_SUBMENU)
  then GTK_STACK object stack ≫= gtk_stack_get_visible_child_name
  else None.

(** gtk_popover_menu_set_property, lines 223-243. *)
Definition gtk_popover_menu_set_property (object : GtkPopoverMenu)
    (property_id : nat) (value : string) : GtkPopoverMenu :=
  let stack := gtk_bin_get_child object in
  if decide (property_id = PROP_VISIBLE_SUBMENU)
  then stack_call object stack
         (λ s, gtk_stack_set_visible_child_name pol s value)
  else object.

(** gtk_container_add on the popover dispatches to the add vfunc that
    gtk_popover_menu_class_init installs (line 258). *)
Definition gtk_container_add (container : GtkPopoverMenu)
    (child : GtkWidget) : GtkPopoverMenu :=
  gtk_popover_menu_add container child.

(** gtk_popover_menu_init, lines 128-144.  [stack_addr] is the address
    of the object that gtk_stack_new allocates. *)
Definition gtk_popover_menu_init (popover : GtkPopoverMenu)
    (stack_addr : nat) : GtkPopoverMenu :=
  let stack := mkWidget stack_addr None in
  let popover := with_stacks popover (<[stack_addr := gtk_stack_new]> (stacks popover)) in
  let popover :=
    stack_call popover (Some stack)
      (quiet (λ s, gtk_stack_set_vhomogeneous s false)) in
  let popover :=
    stack_call popover (Some stack)
      (quiet (λ s, gtk_stack_set_transition_type s
                     GTK_STACK_TRANSITION_TYPE_SLIDE_LEFT_RIGHT)) in
  let popover :=
    stack_call popover (Some stack)
      (quiet (λ s, gtk_stack_set_interpolate_size s true)) in
  let popover := gtk_container_add popover stack in
  let popover :=
    stack_call popover (Some stack)
      (quiet (λ s, g_signal_connect_visible_child_name s
                     CB_visible_submenu_changed)) in
  gtk_style_context_add_class popover GTK_STYLE_CLASS_MENU.

(** gtk_popover_menu_class_init, lines 245-268.  The vfuncs it installs are
    the functions above (see [gtk_container_add]); the one property it
    installs is visible-submenu, readable and writable, with default
    NULL. *)
Definition visible_submenu_pspec : GParamSpecString :=
  {| pspec_name := "visible-submenu";
     pspec_default := None;
     pspec_readable := true;
     pspec_writable := true |}.

Definition gtk_popover_menu_class_init : list (nat * GParamSpecString) :=
  [(PROP_VISIBLE_SUBMENU, visible_submenu_pspec)].

(** The instance g_object_new hands to the instance initialiser: no
    child, unmapped, nothing notified. *)
Definition blank_instance : GtkPopoverMenu :=
  {| bin_child := None;
     stacks := ∅;
     widget_mapped := false;
     contents_style_classes := [];
     notified := [] |}.

(** gtk_popover_menu_new, lines 277-281. *)
Definition gtk_popover_menu_new (stack_addr : nat) : GtkPopoverMenu :=
  gtk_popover_menu_init blank_instance stack_addr.

End WithPolicy.

(** The page container of a popover: the GtkStack behind its bin child. *)
Definition page_container (p : GtkPopoverMenu) : option GtkStack :=
  GTK_STACK p (gtk_bin_get_child p).

(** The visible-submenu property as a reader sees it. *)
Definition visible_submenu (p : GtkPopoverMenu) : option string :=
  page_container p ≫= gtk_stack_get_visible_child_name.

End Popover.

(** ** Operations of the component, and runs of them *)

Inductive Op :=
  | OpAddChild (child : GtkWidget)
  | OpAddSubmenu (submenu : GtkWidget) (name : string)
  | OpRemoveChild (child : GtkWidget)
  | OpOpenSubmenu (name : string)
  | OpGetVisibleSubmenu
  | OpSetVisibleSubmenu (name : string)
  | OpMap
  | OpUnmap.

Module Run.
Import Stack Popover.

Definition step (pol : StackPolicy) (p : GtkPopoverMenu) (op : Op)
    : GtkPopoverMenu :=
  match op with
  | OpAddChild child => gtk_container_add pol p child
  | OpAddSubmenu submenu name => gtk_popover_menu_add_submenu pol p submenu name
  | OpRemoveChild child => gtk_popover_menu_remove p child
  | OpOpenSubmenu name => gtk_popover_menu_open_submenu pol p name
  | OpGetVisibleSubmenu => p
  | OpSetVisibleSubmenu name =>
      gtk_popover_menu_set_property pol p PROP_VISIBLE_SUBMENU name
  | OpMap => gtk_popover_menu_map pol p
  | OpUnmap => gtk_popover_menu_unmap pol p
  end.

Definition run (pol : StackPolicy) (p : GtkPopoverMenu) (ops : list Op)
    : GtkPopoverMenu :=
  foldl (step pol) p ops.

(** An operation other than the removal of the object at [stack_addr]. *)
Definition keeps_stack (stack_addr : nat) (op : Op) : bool :=
  match op with
  | OpRemoveChild child => negb (bool_decide (widget_addr child = stack_addr))
  | _ => true
  end.

(** Number of steps of a run at which the visible-submenu property, read
    before and after the step, differs. *)
Fixpoint visible_changes (pol : StackPolicy) (p : GtkPopoverMenu)
    (ops : list Op) : nat :=
  match ops with
  | [] => 0
  | op :: rest =>
      (if decide (visible_submenu p = visible_submenu (step pol p op))
       then 0 else 1)
      + visible_changes pol (step pol p op) rest
  end.

End Run.

(** The effective page name in the words of the specification: the child's
    own name when it has one; otherwise "main" when no page named "main"
    exists, and "submenu" when one does. *)
Definition spec_page_name (own : option string) (pages : list string) : string :=
  match own with
  | Some n => n
  | None => if bool_decide ("main" ∈ pages) then "submenu" else "main"
  end.

(** ** Predicates used in the statements *)

Module Predicates.
Import Stack Popover Run.

(** A child without a name of its own. *)
Definition unnamed (c : GtkWidget) : Prop := gtk_widget_get_name c = None.

(** The visible name, when there is one, is the name of a page. *)
Definition visible_is_page (s : GtkStack) : Prop :=
  ∀ n, stack_visible_child_name s = Some n → n ∈ page_names s.

(** The popover's child is the object allocated at construction, that
    object is a live GtkStack, and visible_submenu_changed is its one
    notify::visible-child-name handler, and the visible name is a page. *)
Definition constructed (stack_addr : nat) (p : GtkPopoverMenu) : Prop :=
  gtk_bin_get_child p = Some (mkWidget stack_addr None)
  ∧ ∃ s, page_container p = Some s
         ∧ stack_notify_handlers s = [CB_visible_submenu_changed]
         ∧ visible_is_page s.

(** A stack operation that keeps the handlers and invokes them exactly
    when it changes the visible name. *)
Definition exact_notifier (f : GtkStack → Emitting GtkStack) : Prop :=
  ∀ s, stack_notify_handlers (f s).1 = stack_notify_handlers s
       ∧ (f s).2 =
           (if decide (stack_visible_child_name s
                       = stack_visible_child_name (f s).1)
            then [] else stack_notify_handlers s)
       ∧ (visible_is_page s → visible_is_page (f s).1).

(** The notifications an operation adds: one when the visible-submenu
    property reads differently after it, none otherwise. *)
Definition notified_once_if_changed (p q : GtkPopoverMenu) : Prop :=
  notified q = notified p ++
    (if decide (visible_submenu p = visible_submenu q)
     then [] else ["visible-submenu"]).

End Predicates.

(** ** Concrete instances used by the examples *)

Module Examples.
Import Stack Popover Run.

Definition ex_pol : StackPolicy := mkPolicy ABSENT_NO_OP COLLISION_REFUSE.

(** An unnamed first child, an unnamed second child, a child named
    "more" and a third unnamed child. *)
Definition ex_a : GtkWidget := mkWidget 1 None.
Definition ex_b : GtkWidget := mkWidget 2 None.
Definition ex_more : GtkWidget := mkWidget 3 (Some "more").
Definition ex_c : GtkWidget := mkWidget 4 None.

(** The page container as gtk_popover_menu_init configures it. *)
Definition ex_stack0 : GtkStack :=
  {| stack_children := [];
     stack_visible_child_name := None;
     stack_vhomogeneous := false;
     stack_transition_type := GTK_STACK_TRANSITION_TYPE_SLIDE_LEFT_RIGHT;
     stack_interpolate_size := true;
     stack_notify_handlers := [CB_visible_submenu_changed];
     stack_requested := [] |}.

Definition ex_stack1 : GtkStack := gtk_stack_add_named ex_pol ex_stack0 ex_a "main".
Definition ex_stack2 : GtkStack := gtk_stack_add_named ex_pol ex_stack1 ex_b "submenu".
Definition ex_stack3 : GtkStack := gtk_stack_add_named ex_pol ex_stack2 ex_more "more".

Definition ex_menu0 : GtkPopoverMenu := gtk_popover_menu_new ex_pol 7.
Definition ex_menu1 : GtkPopoverMenu := gtk_popover_menu_add ex_pol ex_menu0 ex_a.
Definition ex_menu2 : GtkPopoverMenu := gtk_popover_menu_add ex_pol ex_menu1 ex_b.
Definition ex_menu3 : GtkPopoverMenu := gtk_popover_menu_add ex_pol ex_menu2 ex_more.

(** A popover whose only page is named "X", with that page visible. *)
Definition ex_x : GtkWidget := mkWidget 5 (Some "X").
Definition only_x (pol : StackPolicy) : GtkPopoverMenu :=
  gtk_popover_menu_open_submenu pol
    (gtk_popover_menu_add pol (gtk_popover_menu_new pol 7) ex_x) "X".

(** A run used by the examples: two unnamed children, then operations of
    which four change the visible page. *)
Definition ex_ops : list Op :=
  [ OpAddChild ex_a; OpAddChild ex_b;
    OpOpenSubmenu "submenu"; OpOpenSubmenu "submenu";
    OpMap; OpSetVisibleSubmenu "submenu"; OpGetVisibleSubmenu; OpUnmap;
    OpRemoveChild ex_b ].

End Examples.

(** ** Further predicates on popovers and page containers *)

Module Effects.
Import Stack Popover Run Predicates.

(** The configuration gtk_popover_menu_init gives the page container
    (lines 135-140): heights not homogeneous, slide transition, size
    interpolation, and visible_submenu_changed as the one handler. *)
Definition configured (s : GtkStack) : Prop :=
  stack_vhomogeneous s = false
  ∧ stack_transition_type s = GTK_STACK_TRANSITION_TYPE_SLIDE_LEFT_RIGHT
  ∧ stack_interpolate_size s = true
  ∧ stack_notify_handlers s = [CB_visible_submenu_changed].

(** The popover's child is the object at [stack_addr], a GtkStack that is
    configured as at construction. *)
Definition configured_at (stack_addr : nat) (p : GtkPopoverMenu) : Prop :=
  gtk_bin_get_child p = Some (mkWidget stack_addr None)
  ∧ ∃ s, page_container p = Some s ∧ configured s.



(** No page of the container is held by [child]. *)
Definition holds_no_page (s : GtkStack) (child : GtkWidget) : Prop :=
  Forall (λ nw, same_widget nw.2 child = false) (stack_children s).

(** Every page named [name] is held by [child]. *)
Definition only_holder (s : GtkStack) (name : string) (child : GtkWidget)
    : Prop :=
  Forall (λ nw, nw.1 = name → same_widget nw.2 child = true)
    (stack_children s).

End Effects.

(** Settles a decidable closed proposition by evaluating its decision. *)
Ltac by_decide := apply (bool_decide_unpack _); vm_compute; exact I.

(** ** Facts about the page container *)

Section StackFacts.
Import Stack.
Implicit Types (l : list (string * GtkWidget)) (s : GtkStack)
  (n name : string) (w child : GtkWidget).

Lemma lookup_page_None l n : lookup_page l n = None ↔ n ∉ l.*1.
Proof.
  induction l as [|[m w] l IH]; simpl.
  - split; [intros _; apply not_elem_of_nil | done].
  - rewrite not_elem_of_cons. destruct (decide (m = n)) as [->|Hne].
    + split; [done | intros [? _]; done].
    + rewrite IH. split; [intros ?; split; [congruence | done] | intros [_ ?]; done].
Qed.

Lemma lookup_page_is_Some l n : is_Some (lookup_page l n) ↔ n ∈ l.*1.
Proof.
  rewrite <- not_eq_None_Some, lookup_page_None.
  split; [apply dec_stable | auto].
Qed.

Lemma lookup_page_snoc l n w name :
  lookup_page (l ++ [(n, w)]) name =
    match lookup_page l name with
    | Some v => Some v
    | None => if decide (n = name) then Some w else None
    end.
Proof.
  induction l as [|[m v] l IH]; simpl; [done|].
  by destruct (decide (m = name)).
Qed.

Lemma lookup_replace_page l n w name :
  lookup_page (replace_page l n w) name =
    if decide (n = name) then (λ _, w) <$> lookup_page l name
    else lookup_page l name.
Proof.
  induction l as [|[m v] l IH]; simpl.
  - by destruct (decide (n = name)).
  - destruct (decide (m = n)) as [->|Hmn]; simpl.
    + by destruct (decide (n = name)).
    + destruct (decide (m = name)) as [->|Hmne]; simpl; [|apply IH].
      by rewrite decide_False by congruence.
Qed.

Lemma get_child_by_name_None s n :
  gtk_stack_get_child_by_name s n = None ↔ n ∉ page_names s.
Proof. apply lookup_page_None. Qed.

Lemma get_child_by_name_is_Some s n :
  is_Some (gtk_stack_get_child_by_name s n) ↔ n ∈ page_names s.
Proof. apply lookup_page_is_Some. Qed.

Variable pol : StackPolicy.

Lemma add_named_lookup s child name n :
  gtk_stack_get_child_by_name (gtk_stack_add_named pol s child name) n =
    if decide (name = n)
    then match gtk_stack_get_child_by_name s n, on_collision pol with
         | Some old, COLLISION_REFUSE => Some old
         | _, _ => Some child
         end
    else gtk_stack_get_child_by_name s n.
Proof.
  unfold gtk_stack_add_named, gtk_stack_get_child_by_name.
  destruct (lookup_page (stack_children s) name) as [old|] eqn:Hl.
  - destruct (on_collision pol); simpl.
    + rewrite lookup_replace_page.
      destruct (decide (name = n)) as [<-|]; [by rewrite Hl | done].
    + destruct (decide (name = n)) as [<-|]; [by rewrite Hl | done].
  - simpl. rewrite lookup_page_snoc.
    destruct (decide (name = n)) as [<-|]; [by rewrite Hl|].
    by destruct (lookup_page (stack_children s) n).
Qed.

Lemma add_named_lookup_free s child name :
  name ∉ page_names s ∨ on_collision pol = COLLISION_OVERWRITE →
  gtk_stack_get_child_by_name (gtk_stack_add_named pol s child name) name
    = Some child.
Proof.
  intros H. rewrite add_named_lookup, decide_True by done.
  destruct H as [H%get_child_by_name_None | H]; rewrite H; [done|].
  by destruct (gtk_stack_get_child_by_name s name).
Qed.

Lemma add_named_names s child name n :
  n ∈ page_names (gtk_stack_add_named pol s child name) ↔
  n = name ∨ n ∈ page_names s.
Proof.
  rewrite <- !get_child_by_name_is_Some, add_named_lookup.
  destruct (decide (name = n)) as [<-|Hne].
  - split; [by left|]. intros _.
    destruct (gtk_stack_get_child_by_name s name), (on_collision pol); eauto.
  - split; [by right | intros [->|]; done].
Qed.

Lemma add_named_visible s child name :
  stack_visible_child_name (gtk_stack_add_named pol s child name)
    = stack_visible_child_name s.
Proof.
  unfold gtk_stack_add_named.
  by destruct (gtk_stack_get_child_by_name s name), (on_collision pol).
Qed.

Lemma add_named_handlers s child name :
  stack_notify_handlers (gtk_stack_add_named pol s child name)
    = stack_notify_handlers s.
Proof.
  unfold gtk_stack_add_named.
  by destruct (gtk_stack_get_child_by_name s name), (on_collision pol).
Qed.

Lemma set_visible_spec s v :
  stack_visible_child_name (set_visible s v).1 = v
  ∧ stack_children (set_visible s v).1 = stack_children s
  ∧ stack_notify_handlers (set_visible s v).1 = stack_notify_handlers s
  ∧ stack_requested (set_visible s v).1 = stack_requested s
  ∧ (set_visible s v).2 =
      if decide (stack_visible_child_name s = v) then []
      else stack_notify_handlers s.
Proof. unfold set_visible. by destruct (decide _). Qed.

Lemma set_visible_child_name_spec s name :
  let r := gtk_stack_set_visible_child_name pol s name in
  stack_visible_child_name r.1 = visible_after_set pol s name
  ∧ stack_children r.1 = stack_children s
  ∧ stack_notify_handlers r.1 = stack_notify_handlers s
  ∧ stack_requested r.1 = stack_requested s ++ [name]
  ∧ r.2 = if decide (stack_visible_child_name s = stack_visible_child_name r.1)
          then [] else stack_notify_handlers s.
Proof.
  unfold gtk_stack_set_visible_child_name, visible_after_set,
    gtk_stack_get_child_by_name. simpl.
  destruct (decide (name ∈ page_names s)) as [Hin|Hnin].
  - apply lookup_page_is_Some in Hin as [w ->].
    match goal with |- context [set_visible ?a ?b] =>
      destruct (set_visible_spec a b) as (-> & -> & -> & -> & ->) end.
    done.
  - apply lookup_page_None in Hnin as ->.
    destruct (on_absent pol).
    + simpl. by rewrite decide_True.
    + match goal with |- context [set_visible ?a ?b] =>
        destruct (set_visible_spec a b) as (-> & -> & -> & -> & ->) end.
      done.
Qed.

End StackFacts.

Section RemoveFacts.
Import Stack.
Implicit Types (l : list (string * GtkWidget)) (s : GtkStack)
  (n name : string) (w child : GtkWidget).

Lemma lookup_page_filter l child n w :
  lookup_page l n = Some w → same_widget w child = false →
  lookup_page (filter (λ nw, same_widget nw.2 child = false) l) n = Some w.
Proof.
  intros Hl Hw.
  induction l as [|[m v] l IH]; simpl in *; [done|].
  destruct (decide (m = n)) as [->|Hne].
  - injection Hl as ->. rewrite filter_cons_True by done.
    simpl. by rewrite decide_True.
  - destruct (decide (same_widget v child = false)) as [Hv|Hv].
    + rewrite filter_cons_True by done. simpl.
      rewrite decide_False by done. auto.
    + rewrite filter_cons_False by done. auto.
Qed.

Lemma gtk_stack_remove_spec s child :
  let r := gtk_stack_remove s child in
  stack_children r.1 = filter (λ nw, same_widget nw.2 child = false) (stack_children s)
  ∧ stack_notify_handlers r.1 = stack_notify_handlers s
  ∧ r.2 = if decide (stack_visible_child_name s = stack_visible_child_name r.1)
          then [] else stack_notify_handlers s.
Proof.
  unfold gtk_stack_remove. simpl.
  destruct (stack_visible_child_name s) as [v|] eqn:Hv; simpl.
  - destruct (lookup_page _ v); simpl.
    + rewrite Hv. by rewrite decide_True.
    + unfold set_visible; simpl. rewrite Hv. simpl. done.
  - rewrite Hv. by rewrite decide_True.
Qed.

End RemoveFacts.

(** ** Facts about calls into the page container *)

Section PopoverFacts.
Import Stack Popover Run.
Implicit Types (p q : GtkPopoverMenu) (s : GtkStack) (w child : GtkWidget)
  (f : GtkStack → Emitting GtkStack).

Lemma foldl_run_callback p cbs :
  let q := foldl run_callback p cbs in
  bin_child q = bin_child p ∧ stacks q = stacks p
  ∧ widget_mapped q = widget_mapped p
  ∧ notified q = notified p ++ replicate (length cbs) "visible-submenu".
Proof.
  revert p. induction cbs as [|[] cbs IH]; intros p; simpl.
  - by rewrite app_nil_r.
  - destruct (IH (visible_submenu_changed p)) as (-> & -> & -> & ->).
    simpl. by rewrite <- app_assoc.
Qed.

Lemma stack_call_spec p w s f :
  stacks p !! widget_addr w = Some s →
  let q := stack_call p (Some w) f in
  bin_child q = bin_child p
  ∧ stacks q = <[widget_addr w := (f s).1]> (stacks p)
  ∧ widget_mapped q = widget_mapped p
  ∧ notified q = notified p ++ replicate (length (f s).2) "visible-submenu".
Proof.
  intros Hs. simpl. rewrite Hs.
  match goal with |- context [foldl run_callback ?a ?b] =>
    destruct (foldl_run_callback a b) as (-> & -> & -> & ->) end.
  done.
Qed.

Lemma page_container_eq p w :
  bin_child p = Some w → page_container p = stacks p !! widget_addr w.
Proof. unfold page_container, GTK_STACK, gtk_bin_get_child. by intros ->. Qed.

Lemma page_container_inv p s :
  page_container p = Some s →
  ∃ w, bin_child p = Some w ∧ stacks p !! widget_addr w = Some s.
Proof.
  unfold page_container, GTK_STACK, gtk_bin_get_child.
  destruct (bin_child p) as [w|]; [|done]. simpl. eauto.
Qed.

(** A call on the popover's own page container. *)
Lemma stack_call_own p s f :
  page_container p = Some s →
  let q := stack_call p (gtk_bin_get_child p) f in
  bin_child q = bin_child p
  ∧ page_container q = Some (f s).1
  ∧ widget_mapped q = widget_mapped p
  ∧ notified q = notified p ++ replicate (length (f s).2) "visible-submenu".
Proof.
  intros (w & Hw & Hs)%page_container_inv. unfold gtk_bin_get_child. rewrite Hw.
  destruct (stack_call_spec p w s f Hs) as (Hb & Hst & Hm & Hn).
  cbv zeta. split_and!; try done; [congruence|].
  rewrite (page_container_eq _ w) by congruence.
  rewrite Hst. apply lookup_insert_eq.
Qed.

Lemma visible_submenu_eq p s :
  page_container p = Some s → visible_submenu p = stack_visible_child_name s.
Proof. unfold visible_submenu. by intros ->. Qed.

Lemma get_property_visible p :
  gtk_popover_menu_get_property p PROP_VISIBLE_SUBMENU = visible_submenu p.
Proof. unfold gtk_popover_menu_get_property. by rewrite decide_True. Qed.

Lemma set_property_open pol p name :
  gtk_popover_menu_set_property pol p PROP_VISIBLE_SUBMENU name
    = gtk_popover_menu_open_submenu pol p name.
Proof. unfold gtk_popover_menu_set_property. by rewrite decide_True. Qed.

Lemma page_container_parent_unmap p :
  page_container (parent_class_unmap p) = page_container p.
Proof. done. Qed.

Lemma open_submenu_spec pol p s name :
  page_container p = Some s →
  let q := gtk_popover_menu_open_submenu pol p name in
  let s' := (gtk_stack_set_visible_child_name pol s name).1 in
  page_container q = Some s'
  ∧ bin_child q = bin_child p
  ∧ visible_submenu q = visible_after_set pol s name
  ∧ stack_children s' = stack_children s
  ∧ stack_requested s' = stack_requested s ++ [name].
Proof.
  intros Hs. simpl. unfold gtk_popover_menu_open_submenu.
  destruct (stack_call_own p s
    (λ s, gtk_stack_set_visible_child_name pol s name) Hs) as (Hb & Hc & _ & _).
  destruct (set_visible_child_name_spec pol s name) as (Hv & Hch & _ & Hr & _).
  split_and!; try done.
  by rewrite (visible_submenu_eq _ _ Hc).
Qed.

Lemma add_submenu_spec pol p s child name :
  page_container p = Some s →
  let q := gtk_popover_menu_add_submenu pol p child name in
  page_container q = Some (gtk_stack_add_named pol s child name)
  ∧ bin_child q = bin_child p
  ∧ notified q = notified p.
Proof.
  intros Hs. simpl. unfold gtk_popover_menu_add_submenu.
  destruct (stack_call_own p s
    (quiet (λ s, gtk_stack_add_named pol s child name)) Hs) as (Hb & Hc & _ & Hn).
  split_and!; try done. rewrite Hn. simpl. apply app_nil_r.
Qed.

Lemma add_name_spec p s child :
  page_container p = Some s →
  gtk_popover_menu_add_name p (gtk_bin_get_child p) child
    = spec_page_name (gtk_widget_get_name child) (page_names s).
Proof.
  unfold page_container. intros Hs.
  unfold gtk_popover_menu_add_name, spec_page_name.
  destruct (gtk_widget_get_name child); [done|].
  rewrite Hs. simpl.
  destruct (gtk_stack_get_child_by_name s "main") as [m|] eqn:Hm.
  - rewrite bool_decide_eq_true_2; [done|].
    apply get_child_by_name_is_Some. by rewrite Hm.
  - rewrite bool_decide_eq_false_2; [done|].
    by apply get_child_by_name_None.
Qed.

Lemma add_as_add_submenu pol p child :
  is_Some (gtk_bin_get_child p) →
  gtk_popover_menu_add pol p child =
    gtk_popover_menu_add_submenu pol p child
      (gtk_popover_menu_add_name p (gtk_bin_get_child p) child).
Proof.
  unfold gtk_popover_menu_add. intros [w Hw].
  by destruct (gtk_bin_get_child p).
Qed.

End PopoverFacts.

(** ** The documented properties *)

Section Properties.
Import Stack Popover Run Predicates Examples.
Implicit Types (pol : StackPolicy) (p : GtkPopoverMenu) (s : GtkStack)
  (w child : GtkWidget) (name X : string).

Example ex_menu0_container : page_container ex_menu0 = Some ex_stack0.
Proof. reflexivity. Qed.

Example ex_menu3_pages :
  page_names <$> page_container ex_menu3 = Some ["main"; "submenu"; "more"].
Proof. reflexivity. Qed.

Example only_x_visible :
  Forall (λ pol, visible_submenu (only_x pol) = Some "X") all_policies.
Proof. repeat constructor. Qed.

(** The add vfunc on a popover that has its page container forwards to
    gtk_popover_menu_add_submenu under the name of the convention. *)
Lemma add_child_forward pol p s child :
  page_container p = Some s →
  gtk_popover_menu_add pol p child
    = gtk_popover_menu_add_submenu pol p child
        (spec_page_name (gtk_widget_get_name child) (page_names s)).
Proof.
  intros Hs. rewrite add_as_add_submenu, (add_name_spec p s child Hs); [done|].
  apply page_container_inv in Hs as (w & Hw & _).
  unfold gtk_bin_get_child. rewrite Hw. eauto.
Qed.

Lemma add_child_container pol p s child :
  page_container p = Some s →
  page_container (gtk_popover_menu_add pol p child)
    = Some (gtk_stack_add_named pol s child
              (spec_page_name (gtk_widget_get_name child) (page_names s))).
Proof.
  intros Hs. rewrite (add_child_forward pol p s child Hs).
  by destruct (add_submenu_spec pol p s child
    (spec_page_name (gtk_widget_get_name child) (page_names s)) Hs) as (-> & _).
Qed.

(** C1. A child added through the add vfunc of a popover that has its page
    container is given the page name of the naming convention (its own
    name when it has one, otherwise "main" when no page is named "main",
    otherwise "submenu"), and is handed to the page container's insertion
    under that name; when the name is free (or the container overwrites)
    the child is the page found under that name afterwards. *)
Theorem add_child_naming pol p s child :
  page_container p = Some s →
  let name := spec_page_name (gtk_widget_get_name child) (page_names s) in
  gtk_popover_menu_add_name p (gtk_bin_get_child p) child = name
  ∧ gtk_popover_menu_add pol p child
      = gtk_popover_menu_add_submenu pol p child name
  ∧ page_container (gtk_popover_menu_add pol p child)
      = Some (gtk_stack_add_named pol s child name)
  ∧ (name ∉ page_names s ∨ on_collision pol = COLLISION_OVERWRITE →
     (page_container (gtk_popover_menu_add pol p child)
        ≫= λ s', gtk_stack_get_child_by_name s' name) = Some child).
Proof.
  intros Hs name. split_and!.
  - by apply add_name_spec.
  - by apply add_child_forward.
  - by apply add_child_container.
  - intros Hfree. rewrite (add_child_container pol p s child Hs). simpl.
    by apply add_named_lookup_free.
Qed.

Lemma add_child_naming_witness :
  page_container ex_menu1 = Some ex_stack1
  ∧ gtk_popover_menu_add_name ex_menu1 (gtk_bin_get_child ex_menu1) ex_b
      = "submenu"
  ∧ page_container (gtk_popover_menu_add ex_pol ex_menu1 ex_b)
      = Some ex_stack2
  ∧ (page_container (gtk_popover_menu_add ex_pol ex_menu1 ex_b)
       ≫= λ s', gtk_stack_get_child_by_name s' "submenu") = Some ex_b.
Proof.
  split; [reflexivity|].
  destruct (add_child_naming ex_pol ex_menu1 ex_stack1 ex_b) as (H1 & _ & H3 & H4);
    [reflexivity|].
  split; [exact H1|]. split; [exact H3|].
  apply H4. left. by_decide.
Defined.

(** The visible page after a request for [name], read through the
    property getter. *)
Lemma visible_after_open pol p s name :
  page_container p = Some s →
  gtk_popover_menu_get_property
    (gtk_popover_menu_open_submenu pol p name) PROP_VISIBLE_SUBMENU
    = visible_after_set pol s name.
Proof.
  intros Hs. rewrite get_property_visible.
  by destruct (open_submenu_spec pol p s name Hs) as (_ & _ & -> & _).
Qed.

(** C3. For a name X that is a page of the page container, opening the
    submenu X and then reading the visible-submenu property yields X, and
    so does writing X to the property and reading it back. *)
Theorem visible_submenu_roundtrip pol p s X :
  page_container p = Some s →
  X ∈ page_names s →
  gtk_popover_menu_get_property
    (gtk_popover_menu_open_submenu pol p X) PROP_VISIBLE_SUBMENU = Some X
  ∧ gtk_popover_menu_get_property
      (gtk_popover_menu_set_property pol p PROP_VISIBLE_SUBMENU X)
      PROP_VISIBLE_SUBMENU = Some X.
Proof.
  intros Hs HX. rewrite set_property_open, (visible_after_open pol p s X Hs).
  unfold visible_after_set. by rewrite decide_True.
Qed.

Lemma visible_submenu_roundtrip_witness :
  page_container ex_menu3 = Some ex_stack3
  ∧ "more" ∈ page_names ex_stack3
  ∧ gtk_popover_menu_get_property
      (gtk_popover_menu_open_submenu ex_pol ex_menu3 "more")
      PROP_VISIBLE_SUBMENU = Some "more"
  ∧ gtk_popover_menu_get_property
      (gtk_popover_menu_set_property ex_pol ex_menu3 PROP_VISIBLE_SUBMENU "more")
      PROP_VISIBLE_SUBMENU = Some "more".
Proof.
  assert (Hin : "more" ∈ page_names ex_stack3)
    by by_decide.
  split; [reflexivity|]. split; [exact Hin|].
  apply (visible_submenu_roundtrip ex_pol ex_menu3 ex_stack3 "more");
    [reflexivity | exact Hin].
Defined.




(** C2, as stated, fails: a popover whose only page is "X", with "X"
    visible, does not show "main" after map, nor after unmap, whichever
    way the page container treats unknown names. *)
Lemma map_without_main_counterexample :
  Forall (λ pol,
    visible_submenu (only_x pol) = Some "X"
    ∧ visible_submenu (gtk_popover_menu_map pol (only_x pol)) ≠ Some "main"
    ∧ visible_submenu (gtk_popover_menu_unmap pol (only_x pol)) ≠ Some "main")
    all_policies.
Proof. repeat constructor; vm_compute; discriminate. Qed.

(** C2, amended.  For every instance whose page container has a page
    named "main", and whatever page was visible before, map and unmap
    both leave "main" as the visible page; map leaves the widget mapped
    and unmap leaves it unmapped.  On every instance with a page container
    both transitions hand the name "main" to the visible-name setter.
    When no page is named "main", map and unmap leave the visible page as
    the page container leaves it on an unknown name: the page that was
    visible before (a container that ignores the request) or none (a
    container that blanks); so a visible page that was not "main" does not
    become "main". *)
Theorem map_unmap_reset_to_main pol p s :
  page_container p = Some s →
  (∃ s', page_container (gtk_popover_menu_map pol p) = Some s'
         ∧ last (stack_requested s') = Some "main"
         ∧ widget_mapped (gtk_popover_menu_map pol p) = true)
  ∧ (∃ s', page_container (gtk_popover_menu_unmap pol p) = Some s'
           ∧ last (stack_requested s') = Some "main"
           ∧ widget_mapped (gtk_popover_menu_unmap pol p) = false)
  ∧ ("main" ∈ page_names s →
     visible_submenu (gtk_popover_menu_map pol p) = Some "main"
     ∧ visible_submenu (gtk_popover_menu_unmap pol p) = Some "main")
  ∧ ("main" ∉ page_names s →
     let left_visible :=
       match on_absent pol with
       | ABSENT_NO_OP => stack_visible_child_name s
       | ABSENT_BLANK => None
       end in
     visible_submenu (gtk_popover_menu_map pol p) = left_visible
     ∧ visible_submenu (gtk_popover_menu_unmap pol p) = left_visible
     ∧ (stack_visible_child_name s ≠ Some "main" →
        visible_submenu (gtk_popover_menu_map pol p) ≠ Some "main"
        ∧ visible_submenu (gtk_popover_menu_unmap pol p) ≠ Some "main")).
Proof.
  intros Hs. unfold gtk_popover_menu_map, gtk_popover_menu_unmap.
  assert (Hm : page_container (parent_class_map p) = Some s) by done.
  destruct (open_submenu_spec pol _ s "main" Hm) as (Hc1 & _ & Hv1 & _ & Hr1).
  destruct (open_submenu_spec pol _ s "main" Hs) as (Hc2 & _ & Hv2 & _ & Hr2).
  assert (Hv2' : visible_submenu
                   (parent_class_unmap (gtk_popover_menu_open_submenu pol p "main"))
                 = visible_after_set pol s "main") by exact Hv2.
  split; [|split; [|split]].
  - eexists; split_and!; [exact Hc1 | by rewrite Hr1, last_snoc |].
    unfold gtk_popover_menu_open_submenu.
    by destruct (stack_call_own _ s
      (λ s, gtk_stack_set_visible_child_name pol s "main") Hm) as (_ & _ & -> & _).
  - eexists; split_and!; [|by rewrite Hr2, last_snoc | done].
    by rewrite page_container_parent_unmap.
  - intros Hmain. rewrite Hv1, Hv2'. unfold visible_after_set.
    by rewrite decide_True.
  - intros Hmain. cbv zeta. rewrite Hv1, Hv2'. unfold visible_after_set.
    rewrite decide_False by done.
    split; [done|]. split; [done|].
    intros Hbefore. by destruct (on_absent pol).
Qed.

Lemma map_unmap_reset_to_main_witness :
  page_container (gtk_popover_menu_open_submenu ex_pol ex_menu3 "more")
    = Some (gtk_stack_set_visible_child_name ex_pol ex_stack3 "more").1
  ∧ visible_submenu (gtk_popover_menu_open_submenu ex_pol ex_menu3 "more")
      = Some "more"
  ∧ visible_submenu
      (gtk_popover_menu_map ex_pol
         (gtk_popover_menu_open_submenu ex_pol ex_menu3 "more")) = Some "main"
  ∧ visible_submenu
      (gtk_popover_menu_unmap ex_pol
         (gtk_popover_menu_open_submenu ex_pol ex_menu3 "more")) = Some "main"
  ∧ visible_submenu (only_x ex_pol) = Some "X"
  ∧ visible_submenu (gtk_popover_menu_map ex_pol (only_x ex_pol)) ≠ Some "main"
  ∧ visible_submenu (gtk_popover_menu_unmap ex_pol (only_x ex_pol)) ≠ Some "main".
Proof.
  split; [reflexivity|]. split; [reflexivity|].
  destruct (map_unmap_reset_to_main ex_pol
              (gtk_popover_menu_open_submenu ex_pol ex_menu3 "more")
              (gtk_stack_set_visible_child_name ex_pol ex_stack3 "more").1)
    as (_ & _ & Hmain & _); [reflexivity|].
  destruct Hmain as [H1 H2]; [by_decide|].
  split; [exact H1|]. split; [exact H2|]. split; [reflexivity|].
  destruct (map_unmap_reset_to_main ex_pol (only_x ex_pol)
              (gtk_stack_set_visible_child_name ex_pol
                 (gtk_stack_add_named ex_pol ex_stack0 ex_x "X") "X").1)
    as (_ & _ & _ & Hno); [reflexivity|].
  destruct Hno as (_ & _ & Hne); [by_decide|].
  apply Hne. vm_compute. discriminate.
Defined.

(** C7. On an instance that has its page container, addSubmenu (w, n) and
    addChild of w carrying the name n leave the same state, in which the
    page container is the old one after the insertion of w under n; when n
    is free (or the container overwrites) w is the page found under n. *)
Theorem add_submenu_is_named_add pol p s w name :
  page_container p = Some s →
  gtk_widget_get_name w = Some name →
  gtk_popover_menu_add_submenu pol p w name = gtk_popover_menu_add pol p w
  ∧ page_container (gtk_popover_menu_add_submenu pol p w name)
      = Some (gtk_stack_add_named pol s w name)
  ∧ (name ∉ page_names s ∨ on_collision pol = COLLISION_OVERWRITE →
     gtk_stack_get_child_by_name (gtk_stack_add_named pol s w name) name
       = Some w).
Proof.
  intros Hs Hname.
  destruct (add_submenu_spec pol p s w name Hs) as (Hc & _ & _).
  split_and!; [|done|apply add_named_lookup_free].
  rewrite add_as_add_submenu.
  - unfold gtk_popover_menu_add_name. by rewrite Hname.
  - apply page_container_inv in Hs as (sw & Hw & _).
    unfold gtk_bin_get_child. rewrite Hw. eauto.
Qed.

Lemma add_submenu_is_named_add_witness :
  page_container ex_menu2 = Some ex_stack2
  ∧ gtk_widget_get_name ex_more = Some "more"
  ∧ gtk_popover_menu_add_submenu ex_pol ex_menu2 ex_more "more"
      = gtk_popover_menu_add ex_pol ex_menu2 ex_more
  ∧ page_container (gtk_popover_menu_add_submenu ex_pol ex_menu2 ex_more "more")
      = Some ex_stack3.
Proof.
  split; [reflexivity|]. split; [reflexivity|].
  destruct (add_submenu_is_named_add ex_pol ex_menu2 ex_stack2 ex_more "more")
    as (H1 & H2 & _); [reflexivity | reflexivity |].
  split; [exact H1 | exact H2].
Defined.

(** A call that emits nothing only replaces the stack. *)
Lemma stack_call_quiet p w s (f : GtkStack → GtkStack) :
  stacks p !! widget_addr w = Some s →
  stack_call p (Some w) (quiet f)
    = with_stacks p (<[widget_addr w := f s]> (stacks p)).
Proof. intros Hs. unfold stack_call. by rewrite Hs. Qed.

(** The state that construction leaves. *)
Lemma gtk_popover_menu_new_eq pol stack_addr :
  gtk_popover_menu_new pol stack_addr =
    {| bin_child := Some (mkWidget stack_addr None);
       stacks := {[ stack_addr := ex_stack0 ]};
       widget_mapped := false;
       contents_style_classes := [GTK_STYLE_CLASS_MENU];
       notified := [] |}.
Proof.
  unfold gtk_popover_menu_new, gtk_popover_menu_init. cbv zeta.
  set (stack := mkWidget stack_addr None).
  set (p0 := with_stacks blank_instance _).
  assert (H0 : stacks p0 !! widget_addr stack = Some gtk_stack_new)
    by apply lookup_insert_eq.
  rewrite (stack_call_quiet p0 stack _ _ H0).
  set (p1 := with_stacks p0 _).
  assert (H1 : stacks p1 !! widget_addr stack
               = Some (gtk_stack_set_vhomogeneous gtk_stack_new false))
    by apply lookup_insert_eq.
  rewrite (stack_call_quiet p1 stack _ _ H1).
  set (p2 := with_stacks p1 _).
  assert (H2 : stacks p2 !! widget_addr stack
               = Some (gtk_stack_set_transition_type
                         (gtk_stack_set_vhomogeneous gtk_stack_new false)
                         GTK_STACK_TRANSITION_TYPE_SLIDE_LEFT_RIGHT))
    by apply lookup_insert_eq.
  rewrite (stack_call_quiet p2 stack _ _ H2).
  set (p3 := with_stacks p2 _).
  set (p4 := gtk_container_add pol p3 stack).
  assert (H4 : stacks p4 !! widget_addr stack
               = Some (gtk_stack_set_interpolate_size
                         (gtk_stack_set_transition_type
                            (gtk_stack_set_vhomogeneous gtk_stack_new false)
                            GTK_STACK_TRANSITION_TYPE_SLIDE_LEFT_RIGHT) true))
    by apply lookup_insert_eq.
  rewrite (stack_call_quiet p4 stack _ _ H4).
  unfold gtk_style_context_add_class, with_stacks. cbn [bin_child stacks
    widget_mapped contents_style_classes notified p4 p3 p2 p1 p0
    gtk_container_add gtk_popover_menu_add gtk_bin_get_child with_stacks
    blank_instance parent_class_add with_bin_child app widget_addr stack].
  f_equal.
  rewrite !insert_insert_eq. by rewrite insert_empty.
Qed.

Lemma page_container_new pol stack_addr :
  page_container (gtk_popover_menu_new pol stack_addr) = Some ex_stack0.
Proof.
  rewrite gtk_popover_menu_new_eq. unfold page_container, GTK_STACK. simpl.
  apply lookup_singleton_eq.
Qed.

(** C8, as stated, fails: right after construction no name has been
    handed to the visible-name setter, the visible page is not "main", and
    the default of the property is not "main" either. *)
Lemma construct_requests_main_counterexample :
  Forall (λ pol,
    page_container (gtk_popover_menu_new pol 7) = Some ex_stack0
    ∧ ("main" ∉ stack_requested ex_stack0)
    ∧ gtk_popover_menu_get_property (gtk_popover_menu_new pol 7)
        PROP_VISIBLE_SUBMENU ≠ Some "main"
    ∧ pspec_default visible_submenu_pspec ≠ Some "main") all_policies.
Proof.
  repeat constructor; try (vm_compute; discriminate); apply not_elem_of_nil.
Qed.

(** C8, amended.  Right after construction the popover's child is the
    page container, which has no page and no visible entry; no visible
    page has been requested and the visible-submenu property reads as
    unset.  "main" is requested by the first map. *)
Theorem construct_initial_state pol stack_addr :
  let p := gtk_popover_menu_new pol stack_addr in
  ∃ s, page_container p = Some s
    ∧ gtk_bin_get_child p = Some (mkWidget stack_addr None)
    ∧ stack_children s = []
    ∧ stack_visible_child_name s = None
    ∧ stack_requested s = []
    ∧ gtk_popover_menu_get_property p PROP_VISIBLE_SUBMENU
        = pspec_default visible_submenu_pspec
    ∧ gtk_popover_menu_get_property p PROP_VISIBLE_SUBMENU = None
    ∧ ∃ s', page_container (gtk_popover_menu_map pol p) = Some s'
            ∧ stack_requested s' = ["main"].
Proof.
  intros p. exists ex_stack0.
  assert (Hs : page_container p = Some ex_stack0) by apply page_container_new.
  split_and!; try done.
  - unfold p. by rewrite gtk_popover_menu_new_eq.
  - rewrite get_property_visible. by rewrite (visible_submenu_eq _ _ Hs).
  - rewrite get_property_visible. by rewrite (visible_submenu_eq _ _ Hs).
  - unfold gtk_popover_menu_map.
    assert (Hm : page_container (parent_class_map p) = Some ex_stack0) by done.
    destruct (open_submenu_spec pol _ _ "main" Hm) as (Hc & _ & _ & _ & Hr).
    eexists. split; [exact Hc | exact Hr].
Qed.

(** C6. On an instance that has its page container, removing the page
    container itself is forwarded to the parent class and leaves the
    popover without child and without pages; removing any other widget is
    forwarded into the page container, which stays the popover's child:
    afterwards no page holds the removed widget, the pages are exactly the
    old pages held by other widgets, and every name that led to another
    widget still leads to it. *)
Theorem remove_child_forwarding p sw s child :
  gtk_bin_get_child p = Some sw →
  page_container p = Some s →
  (same_widget child sw = true →
     gtk_popover_menu_remove p child = parent_class_remove p child
     ∧ gtk_bin_get_child (gtk_popover_menu_remove p child) = None
     ∧ page_container (gtk_popover_menu_remove p child) = None)
  ∧ (same_widget child sw = false →
     ∃ s', page_container (gtk_popover_menu_remove p child) = Some s'
       ∧ gtk_bin_get_child (gtk_popover_menu_remove p child) = Some sw
       ∧ s' = (gtk_stack_remove s child).1
       ∧ (∀ n w, (n, w) ∈ stack_children s' ↔
                 (n, w) ∈ stack_children s ∧ same_widget w child = false)
       ∧ (∀ n w, gtk_stack_get_child_by_name s n = Some w →
                 same_widget w child = false →
                 gtk_stack_get_child_by_name s' n = Some w)).
Proof.
  intros Hw Hs. unfold gtk_popover_menu_remove. rewrite Hw.
  cbn [from_option]. split.
  - intros Heq. rewrite Heq. split; [done|].
    unfold parent_class_remove. unfold gtk_bin_get_child in Hw.
    rewrite Hw, Heq. done.
  - intros Hne. rewrite Hne.
    destruct (stack_call_own p s (λ s, gtk_stack_remove s child) Hs)
      as (Hb & Hc & _ & _).
    rewrite Hw in Hc, Hb.
    destruct (gtk_stack_remove_spec s child) as (Hch & _ & _).
    eexists. split_and!; [exact Hc | | done | |].
    { unfold gtk_bin_get_child in *. congruence. }
    + intros n w. rewrite Hch, list_elem_of_filter. simpl. tauto.
    + intros n w Hl Hk. unfold gtk_stack_get_child_by_name.
      rewrite Hch. by apply lookup_page_filter.
Qed.

Lemma remove_child_forwarding_witness :
  gtk_bin_get_child ex_menu3 = Some (mkWidget 7 None)
  ∧ page_container ex_menu3 = Some ex_stack3
  ∧ page_container (gtk_popover_menu_remove ex_menu3 (mkWidget 7 None)) = None
  ∧ ∃ s', page_container (gtk_popover_menu_remove ex_menu3 ex_b) = Some s'
          ∧ gtk_stack_get_child_by_name s' "main" = Some ex_a
          ∧ gtk_stack_get_child_by_name s' "more" = Some ex_more.
Proof.
  split; [reflexivity|]. split; [reflexivity|].
  split.
  - destruct (remove_child_forwarding ex_menu3 (mkWidget 7 None) ex_stack3
                (mkWidget 7 None)) as [H _]; [reflexivity | reflexivity |].
    destruct H as (_ & _ & H); [reflexivity | exact H].
  - destruct (remove_child_forwarding ex_menu3 (mkWidget 7 None) ex_stack3 ex_b)
      as [_ H]; [reflexivity | reflexivity |].
    destruct H as (s' & Hc & _ & _ & _ & Hl); [reflexivity|].
    exists s'. split; [exact Hc|].
    split; apply Hl; reflexivity.
Defined.

(** *** Unnamed children added in sequence *)


(** Adding an unnamed child keeps every page name, makes "main" a page
    name, and makes "submenu" one when "main" already was. *)
Lemma add_unnamed_names pol p s child :
  page_container p = Some s → unnamed child →
  ∃ s', page_container (gtk_popover_menu_add pol p child) = Some s'
    ∧ (∀ n, n ∈ page_names s → n ∈ page_names s')
    ∧ "main" ∈ page_names s'
    ∧ ("main" ∈ page_names s → "submenu" ∈ page_names s').
Proof.
  intros Hs Hu.
  assert (Hc := add_child_container pol p s child Hs).
  eexists. split; [exact Hc|].
  unfold unnamed in Hu. rewrite Hu. unfold spec_page_name.
  split_and!.
  - intros n Hn. apply add_named_names. by right.
  - apply add_named_names. case_bool_decide; [by right | by left].
  - intros Hm. apply add_named_names.
    rewrite bool_decide_eq_true_2 by done. by left.
Qed.

Lemma add_unnamed_sequence pol p s cs :
  page_container p = Some s → Forall unnamed cs →
  ∃ s', page_container (foldl (gtk_popover_menu_add pol) p cs) = Some s'
    ∧ (∀ n, n ∈ page_names s → n ∈ page_names s')
    ∧ (1 ≤ length cs → "main" ∈ page_names s')
    ∧ (2 ≤ length cs → "submenu" ∈ page_names s').
Proof.
  intros Hs Hcs. revert p s Hs.
  induction Hcs as [|c cs Hc Hcs IH]; intros p s Hs; simpl.
  - exists s. split_and!; [done | done | lia | lia].
  - destruct (add_unnamed_names pol p s c Hs Hc) as (s1 & Hs1 & Hmono & Hmain & Hsub).
    destruct (IH _ _ Hs1) as (s' & Hs' & Hmono' & Hmain' & Hsub').
    exists s'. split_and!; [done | by auto | by auto |].
    intros Hlen. destruct cs as [|c2 cs]; simpl in *; [lia|].
    destruct (decide (2 ≤ S (length cs))) as [|Hshort]; [by auto|].
    (* exactly two children: the second one is added after "main" *)
    destruct cs; simpl in *; [|lia].
    inversion Hcs as [|? ? Hc2 _]; subst.
    destruct (add_unnamed_names pol _ s1 c2 Hs1 Hc2) as (s2 & Hs2 & _ & _ & Hsub2).
    rewrite Hs2 in Hs'. injection Hs' as <-. auto.
Qed.

(** C9. On an instance that has its page container, an unnamed child
    added while a page named "main" exists is given the name "submenu",
    whatever the other pages are.  In particular, when unnamed children
    are added in sequence, at every child after the second the pages
    "main" and "submenu" both exist already and the name chosen is again
    "submenu". *)
Theorem unnamed_children_collide pol p s :
  page_container p = Some s →
  (∀ child, "main" ∈ page_names s → unnamed child →
     gtk_popover_menu_add_name p (gtk_bin_get_child p) child = "submenu"
     ∧ gtk_popover_menu_add pol p child
         = gtk_popover_menu_add_submenu pol p child "submenu")
  ∧ (∀ cs i child, Forall unnamed cs → 2 ≤ i → cs !! i = Some child →
     let q := foldl (gtk_popover_menu_add pol) p (take i cs) in
     ∃ sq, page_container q = Some sq
       ∧ "main" ∈ page_names sq
       ∧ "submenu" ∈ page_names sq
       ∧ gtk_popover_menu_add_name q (gtk_bin_get_child q) child = "submenu").
Proof.
  intros Hs.
  assert (Hone : ∀ q sq child,
    page_container q = Some sq → "main" ∈ page_names sq → unnamed child →
    gtk_popover_menu_add_name q (gtk_bin_get_child q) child = "submenu"
    ∧ gtk_popover_menu_add pol q child
        = gtk_popover_menu_add_submenu pol q child "submenu").
  { intros q sq child Hq Hm Hu.
    assert (Hn := add_name_spec q sq child Hq).
    assert (Ha := add_child_forward pol q sq child Hq).
    unfold unnamed in Hu. rewrite Hu in Hn, Ha. unfold spec_page_name in *.
    rewrite bool_decide_eq_true_2 in Hn, Ha by done. done. }
  split; [by eauto|].
  intros cs i child Hcs Hi Hlook q.
  assert (Hlen : length (take i cs) = i).
  { apply length_take_le. apply lookup_lt_Some in Hlook. lia. }
  destruct (add_unnamed_sequence pol p s (take i cs) Hs) as (sq & Hq & _ & Hm & Hsub).
  { by apply Forall_take. }
  exists sq. split_and!; [done | apply Hm; lia | apply Hsub; lia |].
  apply (Hone q sq child); [done | apply Hm; lia |].
  eapply Forall_lookup_1; eauto.
Qed.

Lemma unnamed_children_collide_witness :
  page_container ex_menu0 = Some ex_stack0
  ∧ page_container ex_menu3 = Some ex_stack3
  ∧ gtk_popover_menu_add ex_pol ex_menu3 ex_c
      = gtk_popover_menu_add_submenu ex_pol ex_menu3 ex_c "submenu"
  ∧ ∃ sq, page_container ex_menu2 = Some sq
      ∧ "main" ∈ page_names sq
      ∧ "submenu" ∈ page_names sq
      ∧ gtk_popover_menu_add_name ex_menu2 (gtk_bin_get_child ex_menu2) ex_c
          = "submenu".
Proof.
  split; [reflexivity|]. split; [reflexivity|]. split.
  - destruct (unnamed_children_collide ex_pol ex_menu3 ex_stack3) as [H _];
      [reflexivity|].
    apply (H ex_c); [by_decide | reflexivity].
  - destruct (unnamed_children_collide ex_pol ex_menu0 ex_stack0) as [_ H];
      [reflexivity|].
    apply (H [ex_a; ex_b; ex_c] 2 ex_c);
      [repeat constructor | lia | reflexivity].
Defined.

(** *** Runs of operations from a constructed instance *)



Lemma set_visible_child_name_exact pol name :
  exact_notifier (λ s, gtk_stack_set_visible_child_name pol s name).
Proof.
  intros s.
  destruct (set_visible_child_name_spec pol s name) as (Hv & Hc & ? & _ & ?).
  split_and!; [done | done |].
  intros Hs n. unfold page_names. rewrite Hv, Hc. unfold visible_after_set.
  destruct (decide (name ∈ page_names s)); [by intros [= <-]|].
  destruct (on_absent pol); [apply Hs | done].
Qed.

Lemma add_named_exact pol child name :
  exact_notifier (quiet (λ s, gtk_stack_add_named pol s child name)).
Proof.
  intros s. unfold quiet. simpl.
  rewrite add_named_handlers, add_named_visible, decide_True by done.
  split_and!; [done | done |].
  intros Hs n Hn. rewrite add_named_visible in Hn.
  apply add_named_names. right. by apply Hs.
Qed.

Lemma remove_visible_is_page s child :
  visible_is_page (gtk_stack_remove s child).1.
Proof.
  unfold gtk_stack_remove, visible_is_page. simpl.
  destruct (stack_visible_child_name s) as [v|] eqn:Hv; simpl.
  - destruct (lookup_page _ v) as [w|] eqn:Hl; simpl.
    + rewrite Hv. intros n [= <-].
      apply lookup_page_is_Some. simpl. by rewrite Hl.
    + unfold set_visible. simpl. rewrite Hv. simpl. done.
  - by rewrite Hv.
Qed.

Lemma remove_exact child : exact_notifier (λ s, gtk_stack_remove s child).
Proof.
  intros s. destruct (gtk_stack_remove_spec s child) as (_ & ? & ?).
  split_and!; [done | done |]. intros _. apply remove_visible_is_page.
Qed.


Lemma stack_call_exact stack_addr p f :
  constructed stack_addr p → exact_notifier f →
  let q := stack_call p (gtk_bin_get_child p) f in
  constructed stack_addr q
  ∧ widget_mapped q = widget_mapped p
  ∧ notified_once_if_changed p q.
Proof.
  intros (Hb & s & Hs & Hh & Hvis) Hf.
  destruct (stack_call_own p s f Hs) as (Hb' & Hc & Hm & Hn).
  destruct (Hf s) as (Hfh & Hfe & Hfv).
  cbv zeta. split_and!; [| done |].
  - split; [unfold gtk_bin_get_child in *; congruence|].
    eexists. split_and!; [exact Hc | congruence | auto].
  - unfold notified_once_if_changed.
    rewrite Hn, (visible_submenu_eq _ _ Hs), (visible_submenu_eq _ _ Hc), Hfe.
    destruct (decide _); [done | by rewrite Hh].
Qed.

Lemma constructed_new pol stack_addr :
  constructed stack_addr (gtk_popover_menu_new pol stack_addr).
Proof.
  split; [by rewrite gtk_popover_menu_new_eq|].
  exists ex_stack0. split_and!; [apply page_container_new | done | done].
Qed.

Lemma step_constructed pol stack_addr p op :
  constructed stack_addr p → keeps_stack stack_addr op = true →
  constructed stack_addr (step pol p op)
  ∧ notified_once_if_changed p (step pol p op).
Proof.
  intros Hp Hop.
  assert (Hcall : ∀ f, exact_notifier f →
    constructed stack_addr (stack_call p (gtk_bin_get_child p) f)
    ∧ notified_once_if_changed p (stack_call p (gtk_bin_get_child p) f)).
  { intros f Hf. by destruct (stack_call_exact stack_addr p f Hp Hf) as (? & _ & ?). }
  assert (Hsame : notified_once_if_changed p p).
  { unfold notified_once_if_changed. by rewrite decide_True, app_nil_r. }
  destruct op as [child|w name|child|name| |name| |]; cbn [step].
  - unfold gtk_container_add. rewrite add_as_add_submenu.
    + apply Hcall, add_named_exact.
    + destruct Hp as (-> & _). eauto.
  - apply Hcall, add_named_exact.
  - unfold gtk_popover_menu_remove.
    destruct Hp as (Hb & Hs). rewrite Hb. cbn [from_option].
    unfold same_widget. cbn [widget_addr]. cbn [keeps_stack] in Hop.
    apply negb_true_iff in Hop. rewrite Hop.
    rewrite <- Hb. apply Hcall, remove_exact.
  - apply Hcall, set_visible_child_name_exact.
  - done.
  - rewrite set_property_open. apply Hcall, set_visible_child_name_exact.
  - unfold gtk_popover_menu_map, gtk_popover_menu_open_submenu.
    assert (Hp' : constructed stack_addr (parent_class_map p)) by done.
    destruct (stack_call_exact stack_addr _ _ Hp'
      (set_visible_child_name_exact pol "main")) as (? & _ & ?).
    done.
  - unfold gtk_popover_menu_unmap.
    destruct (Hcall _ (set_visible_child_name_exact pol "main")) as (? & ?).
    done.
Qed.

Lemma run_constructed pol stack_addr p ops :
  constructed stack_addr p →
  Forall (λ op, keeps_stack stack_addr op = true) ops →
  constructed stack_addr (run pol p ops)
  ∧ notified (run pol p ops)
      = notified p ++ replicate (visible_changes pol p ops) "visible-submenu".
Proof.
  intros Hp Hops. revert p Hp. unfold run.
  induction Hops as [|op ops Hop Hops IH]; intros p Hp;
    cbn [foldl visible_changes].
  - by rewrite app_nil_r.
  - destruct (step_constructed pol stack_addr p op Hp Hop) as (Hq & Hn).
    destruct (IH _ Hq) as (Hr & Hnr).
    split; [done|]. rewrite Hnr, Hn.
    rewrite <- app_assoc. f_equal.
    by destruct (decide _).
Qed.


(** C10. Along every run of the public operations from a constructed
    instance in which the page container itself is never removed, the
    popover's single direct child stays the page container created at
    construction (a live GtkStack with the notification handler
    connected); so the add vfunc never finds the child absent and always
    takes the branch that inserts into the page container. *)
Theorem page_container_stays_child pol stack_addr ops :
  Forall (λ op, keeps_stack stack_addr op = true) ops →
  let p := run pol (gtk_popover_menu_new pol stack_addr) ops in
  gtk_bin_get_child p = Some (mkWidget stack_addr None)
  ∧ (∃ s, page_container p = Some s
          ∧ stack_notify_handlers s = [CB_visible_submenu_changed])
  ∧ ∀ child,
      gtk_popover_menu_add pol p child
        = gtk_popover_menu_add_submenu pol p child
            (gtk_popover_menu_add_name p (gtk_bin_get_child p) child).
Proof.
  intros Hops p.
  destruct (run_constructed pol stack_addr _ ops
              (constructed_new pol stack_addr) Hops) as ((Hb & s & Hs & Hh & _) & _).
  fold p in Hb, Hs. split_and!; [done | by eauto |].
  intros child. apply add_as_add_submenu. rewrite Hb. eauto.
Qed.

Lemma page_container_stays_child_witness :
  Forall (λ op, keeps_stack 7 op = true) ex_ops
  ∧ gtk_bin_get_child (run ex_pol (gtk_popover_menu_new ex_pol 7) ex_ops)
      = Some (mkWidget 7 None).
Proof.
  assert (H : Forall (λ op, keeps_stack 7 op = true) ex_ops)
    by (repeat constructor).
  split; [exact H|].
  exact (proj1 (page_container_stays_child ex_pol 7 ex_ops H)).
Defined.




End Properties.

(** ** Further properties of the code *)

Section MoreFacts.
Import Stack Popover Run Predicates Examples Effects.
Implicit Types (pol : StackPolicy) (p q : GtkPopoverMenu) (s : GtkStack)
  (w child : GtkWidget) (name : string)
  (f : GtkStack → Emitting GtkStack).











End MoreFacts.

Section MoreProperties.
Import Stack Popover Run Predicates Examples Effects.
Implicit Types (pol : StackPolicy) (p q : GtkPopoverMenu) (s : GtkStack)
  (w child : GtkWidget) (name : string)
  (f : GtkStack → Emitting GtkStack).

(** *** The configuration given at construction *)

Lemma set_visible_configured s v :
  configured s → configured (set_visible s v).1.
Proof. unfold set_visible. by destruct (decide _). Qed.

Lemma set_visible_child_name_configured pol s name :
  configured s → configured (gtk_stack_set_visible_child_name pol s name).1.
Proof.
  intros Hs. unfold gtk_stack_set_visible_child_name.
  destruct (gtk_stack_get_child_by_name _ name);
    [by apply set_visible_configured|].
  destruct (on_absent pol); [done | by apply set_visible_configured].
Qed.

Lemma add_named_configured pol s child name :
  configured s → configured (gtk_stack_add_named pol s child name).
Proof.
  unfold gtk_stack_add_named.
  by destruct (gtk_stack_get_child_by_name s name), (on_collision pol).
Qed.

Lemma remove_configured s child :
  configured s → configured (gtk_stack_remove s child).1.
Proof.
  intros Hs. unfold gtk_stack_remove. cbn [stack_visible_child_name with_children].
  destruct (stack_visible_child_name s); [|done].
  destruct (lookup_page _ _); [done | by apply set_visible_configured].
Qed.

Lemma stack_call_configured stack_addr p f :
  configured_at stack_addr p →
  (∀ s, configured s → configured (f s).1) →
  configured_at stack_addr (stack_call p (gtk_bin_get_child p) f).
Proof.
  intros (Hb & s & Hs & Hc) Hf.
  destruct (stack_call_own p s f Hs) as (Hb' & Hc' & _ & _).
  split; [unfold gtk_bin_get_child in *; congruence|].
  exists (f s).1. split; [done | by apply Hf].
Qed.

Lemma step_configured pol stack_addr p op :
  configured_at stack_addr p → keeps_stack stack_addr op = true →
  configured_at stack_addr (step pol p op).
Proof.
  intros Hp Hop.
  assert (Hcall := stack_call_configured stack_addr p).
  destruct op as [child|w name|child|name| |name| |]; cbn [step].
  - unfold gtk_container_add. rewrite add_as_add_submenu.
    + apply Hcall; [done|]. intros s. apply add_named_configured.
    + destruct Hp as (-> & _). eauto.
  - apply Hcall; [done|]. intros s. apply add_named_configured.
  - unfold gtk_popover_menu_remove.
    destruct Hp as (Hb & Hs). rewrite Hb. cbn [from_option].
    unfold same_widget. cbn [widget_addr]. cbn [keeps_stack] in Hop.
    apply negb_true_iff in Hop. rewrite Hop.
    rewrite <- Hb. apply Hcall; [by split|]. intros s. apply remove_configured.
  - apply Hcall; [done|]. intros s. apply set_visible_child_name_configured.
  - done.
  - rewrite set_property_open.
    apply Hcall; [done|]. intros s. apply set_visible_child_name_configured.
  - unfold gtk_popover_menu_map, gtk_popover_menu_open_submenu.
    apply (stack_call_configured stack_addr (parent_class_map p)); [done|].
    intros s. apply set_visible_child_name_configured.
  - unfold gtk_popover_menu_unmap.
    assert (H : configured_at stack_addr
                  (gtk_popover_menu_open_submenu pol p "main")); [|done].
    apply Hcall; [done|]. intros s. apply set_visible_child_name_configured.
Qed.

(** X1. The page container keeps, along every run of operations that does
    not remove it, the configuration gtk_popover_menu_init gave it: heights
    not homogeneous, left-right slide transition, size interpolation, and
    visible_submenu_changed connected exactly once. *)
Theorem configuration_kept pol stack_addr ops :
  Forall (λ op, keeps_stack stack_addr op = true) ops →
  ∃ s, page_container (run pol (gtk_popover_menu_new pol stack_addr) ops) = Some s
    ∧ stack_vhomogeneous s = false
    ∧ stack_transition_type s = GTK_STACK_TRANSITION_TYPE_SLIDE_LEFT_RIGHT
    ∧ stack_interpolate_size s = true
    ∧ stack_notify_handlers s = [CB_visible_submenu_changed].
Proof.
  intros Hops.
  assert (H0 : configured_at stack_addr (gtk_popover_menu_new pol stack_addr)).
  { split; [by rewrite gtk_popover_menu_new_eq|].
    exists ex_stack0. split; [apply page_container_new | by repeat split]. }
  revert H0. generalize (gtk_popover_menu_new pol stack_addr). unfold run.
  induction Hops as [|op ops Hop Hops IH]; intros p Hp; cbn [foldl].
  - destruct Hp as (_ & s & Hs & Hc). exists s. by split.
  - apply IH. by apply step_configured.
Qed.

Lemma configuration_kept_witness :
  Forall (λ op, keeps_stack 7 op = true) ex_ops
  ∧ ∃ s, page_container (run ex_pol (gtk_popover_menu_new ex_pol 7) ex_ops)
           = Some s
      ∧ stack_vhomogeneous s = false
      ∧ stack_transition_type s = GTK_STACK_TRANSITION_TYPE_SLIDE_LEFT_RIGHT
      ∧ stack_interpolate_size s = true
      ∧ stack_notify_handlers s = [CB_visible_submenu_changed].
Proof.
  assert (H : Forall (λ op, keeps_stack 7 op = true) ex_ops)
    by (repeat constructor).
  split; [exact H|]. exact (configuration_kept ex_pol 7 ex_ops H).
Defined.


(** *** A popover whose page container is removed *)

(** X4. Removing the page container itself (child == stack, lines
    195-196) leaves the popover without child and without pages and
    notifies nothing.  The next widget added goes through the stack-absent
    branch (lines 168-171): the parent class installs it as the direct
    child of the popover, no page is inserted anywhere, and from then on
    that widget is what the later functions cast with GTK_STACK: the
    popover has a page container again exactly when the widget is itself a
    live GtkStack. *)
Theorem add_after_container_removed pol p sw s child :
  gtk_bin_get_child p = Some sw →
  page_container p = Some s →
  let q := gtk_popover_menu_remove p sw in
  let r := gtk_popover_menu_add pol q child in
  gtk_bin_get_child q = None
  ∧ page_container q = None
  ∧ notified q = notified p
  ∧ r = parent_class_add q child
  ∧ gtk_bin_get_child r = Some child
  ∧ stacks r = stacks q
  ∧ notified r = notified p
  ∧ page_container r
      = if same_widget child sw then None else stacks p !! widget_addr child.
Proof.
  intros Hb Hs q r.
  assert (Hself : same_widget sw sw = true)
    by (unfold same_widget; by rewrite bool_decide_eq_true_2).
  assert (Hq : q = with_bin_child
                 (with_stacks p (delete (widget_addr sw) (stacks p))) None).
  { unfold q, gtk_popover_menu_remove. rewrite Hb. cbn [from_option].
    rewrite Hself. unfold parent_class_remove.
    unfold gtk_bin_get_child in Hb. by rewrite Hb, Hself. }
  assert (Hbq : gtk_bin_get_child q = None) by by rewrite Hq.
  assert (Hr : r = parent_class_add q child).
  { unfold r, gtk_popover_menu_add. by rewrite Hbq. }
  clearbody q r. subst q r.
  split_and!; try done.
  unfold page_container, GTK_STACK, parent_class_add, gtk_bin_get_child.
  cbn [bin_child stacks with_bin_child with_stacks mbind option_bind].
  unfold same_widget.
  destruct (decide (widget_addr child = widget_addr sw)) as [Heq|Hne].
  - rewrite bool_decide_eq_true_2 by done. rewrite Heq. apply lookup_delete_eq.
  - rewrite bool_decide_eq_false_2 by done. by apply lookup_delete_ne.
Qed.

Lemma add_after_container_removed_witness :
  gtk_bin_get_child ex_menu3 = Some (mkWidget 7 None)
  ∧ page_container ex_menu3 = Some ex_stack3
  ∧ gtk_bin_get_child
      (gtk_popover_menu_add ex_pol
         (gtk_popover_menu_remove ex_menu3 (mkWidget 7 None)) ex_c) = Some ex_c
  ∧ page_container
      (gtk_popover_menu_add ex_pol
         (gtk_popover_menu_remove ex_menu3 (mkWidget 7 None)) ex_c) = None
  ∧ page_container
      (gtk_popover_menu_add ex_pol
         (gtk_popover_menu_remove
            (with_stacks ex_menu3 (<[9 := gtk_stack_new]> (stacks ex_menu3)))
            (mkWidget 7 None))
         (mkWidget 9 None)) = Some gtk_stack_new.
Proof.
  split; [reflexivity|]. split; [reflexivity|].
  destruct (add_after_container_removed ex_pol ex_menu3 (mkWidget 7 None)
              ex_stack3 ex_c) as (_ & _ & _ & _ & H5 & _ & _ & H8);
    [reflexivity | reflexivity |].
  split; [exact H5|]. split; [rewrite H8; reflexivity|].
  destruct (add_after_container_removed ex_pol
              (with_stacks ex_menu3 (<[9 := gtk_stack_new]> (stacks ex_menu3)))
              (mkWidget 7 None) ex_stack3 (mkWidget 9 None))
    as (_ & _ & _ & _ & _ & _ & _ & H); [reflexivity | reflexivity |].
  rewrite H. reflexivity.
Defined.

(** *** Repeated requests *)

Lemma visible_after_set_again pol s name :
  visible_after_set pol
    (gtk_stack_set_visible_child_name pol s name).1 name
  = visible_after_set pol s name.
Proof.
  destruct (set_visible_child_name_spec pol s name) as (Hv & Hc & _).
  unfold visible_after_set at 1. unfold page_names. rewrite Hc, Hv.
  fold (page_names s). unfold visible_after_set.
  destruct (decide (name ∈ page_names s)); [done|].
  by destruct (on_absent pol).
Qed.

(** X6. Requesting the same page twice is idempotent, whether or not the
    page exists: the second gtk_popover_menu_open_submenu with the same
    name leaves the visible page where the first put it and emits no
    notification.  In particular an unmap that follows a map (both request
    "main") emits nothing and leaves the visible page as the map left
    it. *)
Theorem open_submenu_idempotent pol p s name :
  page_container p = Some s →
  let q := gtk_popover_menu_open_submenu pol p name in
  visible_submenu (gtk_popover_menu_open_submenu pol q name)
    = visible_submenu q
  ∧ notified (gtk_popover_menu_open_submenu pol q name) = notified q
  ∧ visible_submenu (gtk_popover_menu_unmap pol (gtk_popover_menu_map pol p))
      = visible_submenu (gtk_popover_menu_map pol p)
  ∧ notified (gtk_popover_menu_unmap pol (gtk_popover_menu_map pol p))
      = notified (gtk_popover_menu_map pol p).
Proof.
  intros Hs.
  assert (Hgen : ∀ p0 name0, page_container p0 = Some s →
    let q0 := gtk_popover_menu_open_submenu pol p0 name0 in
    visible_submenu (gtk_popover_menu_open_submenu pol q0 name0)
      = visible_submenu q0
    ∧ notified (gtk_popover_menu_open_submenu pol q0 name0) = notified q0).
  { intros p0 name0 Hs0 q0.
    destruct (open_submenu_spec pol p0 s name0 Hs0) as (Hc & _ & Hv & _).
    fold q0 in Hc, Hv.
    destruct (open_submenu_spec pol q0 _ name0 Hc) as (_ & _ & Hv2 & _).
    rewrite visible_after_set_again in Hv2.
    split; [by rewrite Hv2, Hv|].
    unfold gtk_popover_menu_open_submenu at 1.
    destruct (stack_call_own q0 _
      (λ s, gtk_stack_set_visible_child_name pol s name0) Hc) as (_ & _ & _ & ->).
    match goal with |- context [gtk_stack_set_visible_child_name pol ?x name0] =>
      destruct (set_visible_child_name_spec pol x name0) as (Hv3 & _ & _ & _ & ->)
    end.
    rewrite Hv3, visible_after_set_again.
    rewrite (visible_submenu_eq _ _ Hc) in Hv. rewrite Hv.
    rewrite decide_True by done. apply app_nil_r. }
  intros q. destruct (Hgen p name Hs) as (H1 & H2). fold q in H1, H2.
  split_and!; [done | done | |].
  - unfold gtk_popover_menu_map, gtk_popover_menu_unmap.
    destruct (Hgen (parent_class_map p) "main" Hs) as (H & _). exact H.
  - unfold gtk_popover_menu_map, gtk_popover_menu_unmap.
    destruct (Hgen (parent_class_map p) "main" Hs) as (_ & H). exact H.
Qed.

Lemma open_submenu_idempotent_witness :
  page_container ex_menu3 = Some ex_stack3
  ∧ notified (gtk_popover_menu_open_submenu ex_pol
                (gtk_popover_menu_open_submenu ex_pol ex_menu3 "more") "more")
    = notified (gtk_popover_menu_open_submenu ex_pol ex_menu3 "more")
  ∧ notified (gtk_popover_menu_unmap ex_pol (gtk_popover_menu_map ex_pol ex_menu3))
    = notified (gtk_popover_menu_map ex_pol ex_menu3).
Proof.
  split; [reflexivity|].
  destruct (open_submenu_idempotent ex_pol ex_menu3 ex_stack3 "more")
    as (_ & H2 & _ & H4); [reflexivity|].
  split; [exact H2 | exact H4].
Defined.

(** *** The naming convention in use *)

Lemma add_named_free_children pol s child name :
  name ∉ page_names s →
  stack_children (gtk_stack_add_named pol s child name)
    = stack_children s ++ [(name, child)].
Proof.
  intros Hfree%get_child_by_name_None. unfold gtk_stack_add_named.
  by rewrite Hfree.
Qed.

(** X7. On a freshly constructed popover the first child added without a
    name becomes the page "main" and a second one the page "submenu", in
    this order and for any two widgets; mapping the popover then shows
    "main". *)
Theorem first_two_unnamed_children pol stack_addr a b :
  unnamed a → unnamed b →
  let p := gtk_popover_menu_add pol
             (gtk_popover_menu_add pol (gtk_popover_menu_new pol stack_addr) a) b in
  (∃ s, page_container p = Some s
        ∧ stack_children s = [("main", a); ("submenu", b)])
  ∧ visible_submenu (gtk_popover_menu_map pol p) = Some "main"
  ∧ widget_mapped (gtk_popover_menu_map pol p) = true.
Proof.
  intros Ha Hb p. unfold unnamed in Ha, Hb.
  assert (H0 := page_container_new pol stack_addr).
  assert (H1 := add_child_container pol _ _ a H0).
  rewrite Ha in H1.
  change (spec_page_name None (page_names ex_stack0)) with "main" in H1.
  set (s1 := gtk_stack_add_named pol ex_stack0 a "main") in H1.
  assert (Hc1 : stack_children s1 = [("main", a)]).
  { unfold s1. rewrite add_named_free_children; [done|]. apply not_elem_of_nil. }
  assert (H2 := add_child_container pol _ _ b H1).
  rewrite Hb in H2. fold p in H2.
  assert (Hsub : spec_page_name None (page_names s1) = "submenu").
  { unfold page_names. by rewrite Hc1. }
  rewrite Hsub in H2.
  set (s2 := gtk_stack_add_named pol s1 b "submenu") in H2.
  assert (Hc2 : stack_children s2 = [("main", a); ("submenu", b)]).
  { unfold s2. rewrite add_named_free_children; [by rewrite Hc1|].
    unfold page_names. rewrite Hc1. by_decide. }
  clearbody p s2. split; [by exists s2|].
  unfold gtk_popover_menu_map.
  assert (Hm : page_container (parent_class_map p) = Some s2) by exact H2.
  destruct (open_submenu_spec pol _ _ "main" Hm) as (_ & _ & Hv & _).
  split.
  - rewrite Hv. unfold visible_after_set, page_names. rewrite Hc2.
    by rewrite decide_True by by_decide.
  - unfold gtk_popover_menu_open_submenu.
    by destruct (stack_call_own _ _
      (λ s, gtk_stack_set_visible_child_name pol s "main") Hm) as (_ & _ & -> & _).
Qed.

Lemma first_two_unnamed_children_witness :
  unnamed ex_a ∧ unnamed ex_b
  ∧ (stack_children <$> page_container ex_menu2)
      = Some [("main", ex_a); ("submenu", ex_b)]
  ∧ visible_submenu (gtk_popover_menu_map ex_pol ex_menu2) = Some "main".
Proof.
  split; [reflexivity|]. split; [reflexivity|].
  destruct (first_two_unnamed_children ex_pol 7 ex_a ex_b)
    as ((s & Hs & Hc) & Hv & _); [reflexivity | reflexivity |].
  split; [|exact Hv].
  change ex_menu2 with (gtk_popover_menu_add ex_pol
    (gtk_popover_menu_add ex_pol (gtk_popover_menu_new ex_pol 7) ex_a) ex_b).
  rewrite Hs. simpl. by rewrite Hc.
Defined.

Lemma filter_all_kept (l : list (string * GtkWidget)) child :
  Forall (λ nw, same_widget nw.2 child = false) l →
  filter (λ nw, same_widget nw.2 child = false) l = l.
Proof.
  induction 1 as [|nw l Hnw Hl IH]; [done|].
  by rewrite filter_cons_True, IH.
Qed.

Lemma remove_holds_no_page s child :
  holds_no_page s child → visible_is_page s →
  gtk_stack_remove s child = (s, []).
Proof.
  intros Hno Hvis. unfold gtk_stack_remove.
  rewrite (filter_all_kept _ _ Hno).
  assert (Hs : with_children s (stack_children s) = s) by by destruct s.
  rewrite Hs.
  destruct (stack_visible_child_name s) as [v|] eqn:Hv; [|done].
  destruct (lookup_page (stack_children s) v) eqn:Hl; [done|].
  apply lookup_page_None in Hl. destruct Hl. by apply Hvis.
Qed.

(** X8. Removing a widget that is neither the page container nor the holder
    of any page changes nothing at all: the popover is returned as it was
    (on a popover whose visible name, if any, names a page). *)
Theorem remove_stranger_no_effect p sw s child :
  gtk_bin_get_child p = Some sw →
  page_container p = Some s →
  same_widget child sw = false →
  holds_no_page s child →
  visible_is_page s →
  gtk_popover_menu_remove p child = p.
Proof.
  intros Hb Hs Hne Hno Hvis.
  unfold gtk_popover_menu_remove. rewrite Hb. cbn [from_option]. rewrite Hne.
  unfold stack_call.
  rewrite (page_container_eq p sw Hb) in Hs. rewrite Hs.
  rewrite (remove_holds_no_page s child Hno Hvis). cbn [fst snd foldl].
  rewrite insert_id by done. by destruct p.
Qed.

Lemma remove_stranger_no_effect_witness :
  gtk_bin_get_child ex_menu3 = Some (mkWidget 7 None)
  ∧ page_container ex_menu3 = Some ex_stack3
  ∧ gtk_popover_menu_remove ex_menu3 ex_c = ex_menu3.
Proof.
  split; [reflexivity|]. split; [reflexivity|].
  apply (remove_stranger_no_effect ex_menu3 (mkWidget 7 None) ex_stack3 ex_c);
    [reflexivity | reflexivity | reflexivity | repeat constructor |].
  intros n Hn. vm_compute in Hn. discriminate Hn.
Defined.

Lemma lookup_page_filter_None (l : list (string * GtkWidget)) name child :
  Forall (λ nw, nw.1 = name → same_widget nw.2 child = true) l →
  lookup_page (filter (λ nw, same_widget nw.2 child = false) l) name = None.
Proof.
  intros Hl. apply lookup_page_None. intros Hin.
  apply list_elem_of_fmap in Hin as ([n w] & -> & Hin).
  apply list_elem_of_filter in Hin as [Hkept Hin].
  rewrite Forall_forall in Hl. specialize (Hl _ Hin eq_refl).
  simpl in *. congruence.
Qed.

(** X9. The name given to an unnamed child depends on the pages present at
    the time, not on the history: once the widget holding "main" has been
    removed, the next unnamed child is named "main" again and is the page
    found under "main". *)
Theorem unnamed_after_main_removed pol p sw s old child :
  gtk_bin_get_child p = Some sw →
  page_container p = Some s →
  same_widget old sw = false →
  only_holder s "main" old →
  unnamed child →
  let q := gtk_popover_menu_remove p old in
  gtk_popover_menu_add_name q (gtk_bin_get_child q) child = "main"
  ∧ (page_container (gtk_popover_menu_add pol q child)
       ≫= λ s', gtk_stack_get_child_by_name s' "main") = Some child.
Proof.
  intros Hb Hs Hne Hold Hu q.
  assert (Hq : page_container q = Some (gtk_stack_remove s old).1).
  { unfold q, gtk_popover_menu_remove. rewrite Hb. cbn [from_option].
    rewrite Hne. rewrite <- Hb.
    by destruct (stack_call_own p s (λ s, gtk_stack_remove s old) Hs)
      as (_ & -> & _). }
  assert (Hfree : "main" ∉ page_names (gtk_stack_remove s old).1).
  { apply get_child_by_name_None. unfold gtk_stack_get_child_by_name.
    destruct (gtk_stack_remove_spec s old) as (-> & _).
    by apply lookup_page_filter_None. }
  assert (Hname : spec_page_name (gtk_widget_get_name child)
                    (page_names (gtk_stack_remove s old).1) = "main").
  { unfold unnamed in Hu. rewrite Hu. unfold spec_page_name.
    by rewrite bool_decide_eq_false_2. }
  split.
  - by rewrite (add_name_spec q _ child Hq).
  - rewrite (add_child_container pol q _ child Hq), Hname. simpl.
    apply add_named_lookup_free. by left.
Qed.

Lemma unnamed_after_main_removed_witness :
  gtk_bin_get_child ex_menu3 = Some (mkWidget 7 None)
  ∧ page_container ex_menu3 = Some ex_stack3
  ∧ gtk_popover_menu_add_name (gtk_popover_menu_remove ex_menu3 ex_a)
      (gtk_bin_get_child (gtk_popover_menu_remove ex_menu3 ex_a)) ex_c = "main"
  ∧ (page_container
       (gtk_popover_menu_add ex_pol (gtk_popover_menu_remove ex_menu3 ex_a) ex_c)
       ≫= λ s', gtk_stack_get_child_by_name s' "main") = Some ex_c.
Proof.
  split; [reflexivity|]. split; [reflexivity|].
  apply (unnamed_after_main_removed ex_pol ex_menu3 (mkWidget 7 None)
           ex_stack3 ex_a ex_c);
    [reflexivity | reflexivity | reflexivity | | reflexivity].
  repeat constructor; simpl; intros H; try reflexivity; discriminate H.
Defined.

(** *** Insertion and removal together *)

(** X10. Adding a submenu under a free name and then removing the same
    widget is a round trip on the pages: the page list is the one from
    before the insertion, every name leads where it led, and the page
    container is still the popover's child (for a widget that is neither
    the page container nor already a page holder). *)
Theorem add_then_remove_round_trip pol p sw s w name :
  gtk_bin_get_child p = Some sw →
  page_container p = Some s →
  same_widget w sw = false →
  name ∉ page_names s →
  holds_no_page s w →
  let q := gtk_popover_menu_remove (gtk_popover_menu_add_submenu pol p w name) w in
  (stack_children <$> page_container q) = Some (stack_children s)
  ∧ gtk_bin_get_child q = Some sw
  ∧ ∀ n, (page_container q ≫= λ s', gtk_stack_get_child_by_name s' n)
         = gtk_stack_get_child_by_name s n.
Proof.
  intros Hb Hs Hne Hfree Hno q.
  destruct (add_submenu_spec pol p s w name Hs) as (Hc1 & Hb1 & _).
  set (p1 := gtk_popover_menu_add_submenu pol p w name) in *.
  assert (Hb1' : gtk_bin_get_child p1 = Some sw)
    by (unfold gtk_bin_get_child in *; congruence).
  assert (Hq : q = stack_call p1 (gtk_bin_get_child p1)
                     (λ s, gtk_stack_remove s w)).
  { unfold q, gtk_popover_menu_remove. rewrite Hb1'. cbn [from_option].
    by rewrite Hne. }
  destruct (stack_call_own p1 _ (λ s, gtk_stack_remove s w) Hc1)
    as (Hb2 & Hc2 & _ & _).
  rewrite <- Hq in Hb2, Hc2.
  assert (Hch : stack_children
                  (gtk_stack_remove (gtk_stack_add_named pol s w name) w).1
                = stack_children s).
  { destruct (gtk_stack_remove_spec (gtk_stack_add_named pol s w name) w)
      as (-> & _).
    rewrite add_named_free_children by done.
    rewrite filter_app, (filter_all_kept _ _ Hno).
    rewrite filter_cons_False, filter_nil, app_nil_r; [done|].
    simpl. unfold same_widget. by rewrite bool_decide_eq_true_2. }
  split_and!.
  - rewrite Hc2. simpl. by rewrite Hch.
  - unfold gtk_bin_get_child in *. congruence.
  - intros n. rewrite Hc2. simpl. unfold gtk_stack_get_child_by_name.
    by rewrite Hch.
Qed.

Lemma add_then_remove_round_trip_witness :
  gtk_bin_get_child ex_menu3 = Some (mkWidget 7 None)
  ∧ page_container ex_menu3 = Some ex_stack3
  ∧ (stack_children <$> page_container
       (gtk_popover_menu_remove
          (gtk_popover_menu_add_submenu ex_pol ex_menu3 ex_c "extra") ex_c))
    = Some (stack_children ex_stack3).
Proof.
  split; [reflexivity|]. split; [reflexivity|].
  apply (add_then_remove_round_trip ex_pol ex_menu3 (mkWidget 7 None) ex_stack3);
    [reflexivity | reflexivity | reflexivity | by_decide | repeat constructor].
Defined.

(** X11. Adding a child touches one name only: whatever the child and
    whatever the pages, every name other than the one the child is given
    leads to the same widget as before, and the popover keeps its child.
    The same holds for gtk_popover_menu_add_submenu and the name passed
    to it. *)
Theorem add_keeps_other_names pol p s child name :
  page_container p = Some s →
  (∀ n, n ≠ spec_page_name (gtk_widget_get_name child) (page_names s) →
     (page_container (gtk_popover_menu_add pol p child)
        ≫= λ s', gtk_stack_get_child_by_name s' n)
     = gtk_stack_get_child_by_name s n)
  ∧ (∀ n, n ≠ name →
     (page_container (gtk_popover_menu_add_submenu pol p child name)
        ≫= λ s', gtk_stack_get_child_by_name s' n)
     = gtk_stack_get_child_by_name s n)
  ∧ gtk_bin_get_child (gtk_popover_menu_add pol p child) = gtk_bin_get_child p
  ∧ gtk_bin_get_child (gtk_popover_menu_add_submenu pol p child name)
      = gtk_bin_get_child p.
Proof.
  intros Hs.
  destruct (add_submenu_spec pol p s child name Hs) as (Hc & Hb & _).
  split_and!.
  - intros n Hn. rewrite (add_child_container pol p s child Hs). simpl.
    rewrite add_named_lookup. by rewrite decide_False.
  - intros n Hn. rewrite Hc. simpl.
    rewrite add_named_lookup. by rewrite decide_False.
  - rewrite (add_child_forward pol p s child Hs).
    by destruct (add_submenu_spec pol p s child
      (spec_page_name (gtk_widget_get_name child) (page_names s)) Hs)
      as (_ & ? & _).
  - done.
Qed.

Lemma add_keeps_other_names_witness :
  page_container ex_menu3 = Some ex_stack3
  ∧ (page_container (gtk_popover_menu_add ex_pol ex_menu3 ex_c)
       ≫= λ s', gtk_stack_get_child_by_name s' "main") = Some ex_a
  ∧ (page_container (gtk_popover_menu_add_submenu ex_pol ex_menu3 ex_c "more")
       ≫= λ s', gtk_stack_get_child_by_name s' "submenu") = Some ex_b.
Proof.
  split; [reflexivity|].
  destruct (add_keeps_other_names ex_pol ex_menu3 ex_stack3 ex_c "more")
    as (H1 & H2 & _); [reflexivity|].
  split.
  - rewrite (H1 "main"); [reflexivity | vm_compute; discriminate].
  - rewrite (H2 "submenu"); [reflexivity | discriminate].
Defined.

(** X12. Switching pages never adds, removes or reorders pages and never
    changes the popover's child: gtk_popover_menu_open_submenu, the write
    of visible-submenu, map and unmap leave the page list as it was. *)
Theorem switching_keeps_pages pol p s name :
  page_container p = Some s →
  let unchanged q :=
    (stack_children <$> page_container q) = Some (stack_children s)
    ∧ gtk_bin_get_child q = gtk_bin_get_child p in
  unchanged (gtk_popover_menu_open_submenu pol p name)
  ∧ unchanged (gtk_popover_menu_set_property pol p PROP_VISIBLE_SUBMENU name)
  ∧ unchanged (gtk_popover_menu_map pol p)
  ∧ unchanged (gtk_popover_menu_unmap pol p).
Proof.
  intros Hs unchanged.
  assert (Hopen : ∀ p0 n, page_container p0 = Some s →
    (stack_children <$> page_container (gtk_popover_menu_open_submenu pol p0 n))
      = Some (stack_children s)
    ∧ gtk_bin_get_child (gtk_popover_menu_open_submenu pol p0 n)
        = gtk_bin_get_child p0).
  { intros p0 n H0.
    destruct (open_submenu_spec pol p0 s n H0) as (-> & Hb & _ & Hc & _).
    split; [simpl; by rewrite Hc | done]. }
  unfold unchanged. split; [|split; [|split]].
  - apply Hopen, Hs.
  - rewrite set_property_open. apply Hopen, Hs.
  - exact (Hopen (parent_class_map p) "main" Hs).
  - exact (Hopen p "main" Hs).
Qed.

Lemma switching_keeps_pages_witness :
  page_container ex_menu3 = Some ex_stack3
  ∧ (stack_children <$> page_container (gtk_popover_menu_map ex_pol ex_menu3))
      = Some (stack_children ex_stack3).
Proof.
  split; [reflexivity|].
  destruct (switching_keeps_pages ex_pol ex_menu3 ex_stack3 "more")
    as (_ & _ & [H _] & _); [reflexivity | exact H].
Defined.

End MoreProperties.
